(** * panel/pane.py: pane resolution, reactive binding, widget synthesis,
      image headers

    A shallow embedding of [src/panel/pane.py].  Python classes become
    modules holding the class attributes and methods under their source
    names; a class that takes part in pane resolution also exports a
    [PaneType] record [cls].  Exceptions are values of [exn] carried by
    [result]; stateful methods thread their state explicitly. *)

From Stdlib Require Import ZArith QArith String Ascii List Lia Bool Sorted.
From Stdlib Require Strings.Byte.
From stdpp Require Import base list strings pretty gmap.

Open Scope string_scope.
Open Scope list_scope.

(** ** Exceptions and results *)

Inductive exn : Type :=
| TypeError (msg : string)
| ValueError (msg : string)
| AttributeError (msg : string)
| UnboundLocalError (msg : string)
| NotImplementedError
| IndexError (msg : string)
| struct_error (msg : string)
| Exception (msg : string).

Inductive result (A : Type) : Type :=
| Ok (a : A)
| Raise (e : exn).
Arguments Ok {A} a.
Arguments Raise {A} e.

#[global] Instance result_ret : MRet result := fun A a => Ok a.

#[global] Instance result_bind : MBind result := fun A B k r =>
  match r with
  | Ok a => k a
  | Raise e => Raise e
  end.

(** ** Python strings *)

Definition startswith (s p : string) : bool := String.prefix p s.

Definition endswith (s p : string) : bool :=
  String.prefix (String.rev p) (String.rev s).

(** [sub in s] *)
Fixpoint contains (sub s : string) : bool :=
  String.prefix sub s ||
  match s with
  | EmptyString => false
  | String _ s' => contains sub s'
  end.

(** The white space that [str.lstrip()] removes, a character being a code
    point below 256: tab to carriage return, the four separators
    [0x1c]..[0x1f], the space, [0x85] and [0xa0]. *)
Definition isspace (c : ascii) : bool :=
  let n := nat_of_ascii c in
  Nat.eqb n 32 || (Nat.leb 9 n && Nat.leb n 13)
  || (Nat.leb 28 n && Nat.leb n 31) || Nat.eqb n 133 || Nat.eqb n 160.

Fixpoint lstrip (s : string) : string :=
  match s with
  | EmptyString => EmptyString
  | String c s' => if isspace c then lstrip s' else s
  end.

(** [s[:-k]] *)
Definition drop_last (k : nat) (s : string) : string :=
  substring 0 (String.length s - k) s.

(** ** Bytes, [struct.unpack] and [BytesIO] *)

Definition ord (c : Byte.byte) : Z := Z.of_N (Byte.to_N c).

(** [data[i:j]] for non-negative [i <= j]. *)
Definition slice {A} (i j : nat) (data : list A) : list A :=
  take (j - i) (drop i data).

(** [struct.unpack('>LL', buf)] *)
Definition unpack_BE_LL (buf : list Byte.byte) : result (Z * Z) :=
  match buf with
  | [b0; b1; b2; b3; b4; b5; b6; b7] =>
      Ok (ord b0 * 16777216 + ord b1 * 65536 + ord b2 * 256 + ord b3,
          ord b4 * 16777216 + ord b5 * 65536 + ord b6 * 256 + ord b7)%Z
  | _ => Raise (struct_error "unpack requires a buffer of 8 bytes")
  end.

(** [struct.unpack('<HH', buf)] *)
Definition unpack_LE_HH (buf : list Byte.byte) : result (Z * Z) :=
  match buf with
  | [b0; b1; b2; b3] =>
      Ok (ord b0 + ord b1 * 256, ord b2 + ord b3 * 256)%Z
  | _ => Raise (struct_error "unpack requires a buffer of 4 bytes")
  end.

(** [struct.unpack('>HH', buf)] *)
Definition unpack_BE_HH (buf : list Byte.byte) : result (Z * Z) :=
  match buf with
  | [b0; b1; b2; b3] =>
      Ok (ord b0 * 256 + ord b1, ord b2 * 256 + ord b3)%Z
  | _ => Raise (struct_error "unpack requires a buffer of 4 bytes")
  end.

(** [struct.unpack('>H', buf)[0]] *)
Definition unpack_BE_H (buf : list Byte.byte) : result Z :=
  match buf with
  | [b0; b1] => Ok (ord b0 * 256 + ord b1)%Z
  | _ => Raise (struct_error "unpack requires a buffer of 2 bytes")
  end.

(** A [BytesIO] is the bytes not yet read; [read size b] is what
    [b.read(size)] returns and what remains.  A negative size reads to
    the end. *)
Definition read (size : Z) (b : list Byte.byte) : list Byte.byte * list Byte.byte :=
  if (size <? 0)%Z then (b, [])
  else (take (Z.to_nat size) b, drop (Z.to_nat size) b).

(** [ord(c)] on the result of [b.read(1)]. *)
Definition ord1 (c : list Byte.byte) : result Z :=
  match c with
  | [x] => Ok (ord x)
  | _ => Raise (TypeError "ord() expected a character, but string of length 0 found")
  end.

(** ** The objects handed to a pane

    The [applies] predicates only look at an object through [isinstance],
    [hasattr], [type(obj).__name__], [repr] and, for strings, the text
    itself; [HoloViews._cleanup] walks the streams below the object.  An
    object is the record of those observations. *)

(** The identity of a Bokeh model. *)
Definition model := nat.

(** An entry of [stream._subscribers], as far as [_cleanup] reads it:
    [inspect.ismethod(sub)], the plot that owns the method and the
    [state] of that plot. *)
Record subscriber : Type := {
  ismethod : bool;
  owner : nat;
  owner_state : option model
}.

Record pyobj : Type := {
  type_name : string;           (* type(obj).__name__ *)
  is_Viewable : bool;           (* isinstance(obj, Viewable) *)
  is_LayoutDOM : bool;          (* isinstance(obj, LayoutDOM) *)
  is_Dimensioned : bool;        (* isinstance(obj, holoviews.Dimensioned) *)
  is_Figure : bool;             (* isinstance(obj, matplotlib.figure.Figure) *)
  canvas_is_None : bool;        (* obj.canvas is None *)
  attributes : list string;     (* the names for which hasattr holds *)
  text : option string;         (* isinstance(obj, basestring): its text *)
  repr : string;                (* repr(obj) *)
  (* obj.traverse(lambda x: x, [DynamicMap]): per DynamicMap, per nested
     stream, the subscribers *)
  traverse_DynamicMap : list (list (list subscriber))
}.

Definition isinstance_basestring (obj : pyobj) : bool :=
  match text obj with
  | Some _ => true
  | None => false
  end.

(** [unicode] is the text type as well. *)
Definition isinstance_unicode (obj : pyobj) : bool := isinstance_basestring obj.

Definition hasattr (obj : pyobj) (name : string) : bool :=
  bool_decide (name ∈ attributes obj).

(** What the predicates read from the process: [sys.modules] and the file
    system through [os.path.isfile]. *)
Record env : Type := {
  sys_modules : list string;
  isfile : string -> bool
}.

Definition loaded (e : env) (module : string) : bool :=
  bool_decide (module ∈ sys_modules e).

(** ** Pane classes *)

(** Which [_cleanup] a class resolves to: the one of [PaneBase], or the
    override in [HoloViews]. *)
Inductive cleanup_method : Type :=
| PaneBase__cleanup
| HoloViews__cleanup.

(** The class attributes and methods that resolution and the reactive
    binding read from a concrete pane class. *)
Module PaneType.
Record t : Type := {
  __name__ : string;
  precedence : Q;
  _updates : bool;
  applies : env -> pyobj -> result bool;
  _cleanup : cleanup_method
}.
End PaneType.

(** A pane instance: its class and the [object] parameter. *)
Record pane : Type := {
  pane_type : PaneType.t;
  object : option pyobj
}.

(** [type(obj)] of a Viewable, or a pane class. *)
Inductive pyclass : Type :=
| ViewableClass (name : string)
| PaneClass (T : PaneType.t).

(** [sorted(descendents, key=lambda x: x[0])]: a stable ascending sort on
    the precedence. *)
Fixpoint insert_by_precedence (x : PaneType.t) (l : list PaneType.t)
  : list PaneType.t :=
  match l with
  | [] => [x]
  | y :: ys =>
      if Qle_bool (PaneType.precedence x) (PaneType.precedence y) then x :: y :: ys
      else y :: insert_by_precedence x ys
  end.

Definition sorted (l : list PaneType.t) : list PaneType.t :=
  foldr insert_by_precedence [] l.

(** ** The state the reactive binding works on

    One pane [self], the model it is displayed by, and the watcher that
    [_link_object] registered for that model.  The closures named
    [update_models] are data, so that the document can queue them. *)

Inductive update_models : Type :=
| update_in_place (old_model : model)             (* self._update(old_model) *)
| replace_model (old_model new_model : model).    (* the splice into parent *)

(** The calls that leave this file, in the order they are made. *)
Inductive event : Type :=
| Reactive__cleanup (m : option model) (final : bool)  (* super(PaneBase, self)._cleanup *)
| call__get_model                                       (* self._get_model(doc, root, parent, comm) *)
| call__update (m : model)                              (* self._update(model) *)
| call_push                                             (* push(doc, comm) *)
| owner_cleanup (owner : nat).                          (* owner.cleanup() *)

Record world : Type := {
  self : pane;
  children : list model;            (* parent.children *)
  history : list model;             (* the [history] list of update_pane *)
  next_tick : list update_models;   (* callbacks the document runs on its next tick *)
  trace : list event
}.

(** How the rest of the program answers a call, given the calls made so
    far: it returns or raises, and does not reach into [parent.children],
    [history] or [self.object]. *)
Record collaborators : Type := {
  answer : list event -> event -> option exn;   (* None: the call returns *)
  _get_model : list event -> result model
}.

(** State and exceptions: a raise keeps the state reached so far. *)
Definition M (A : Type) : Type := world -> result A * world.

#[global] Instance M_ret : MRet M := fun A a w => (Ok a, w).

#[global] Instance M_bind : MBind M := fun A B k m w =>
  match m w with
  | (Ok a, w') => k a w'
  | (Raise e, w') => (Raise e, w')
  end.

Definition raise {A} (e : exn) : M A := fun w => (Raise e, w).

Definition get_self_object : M (option pyobj) := fun w => (Ok (object (self w)), w).

Definition set_self_object (o : option pyobj) : M unit := fun w =>
  (Ok tt, {| self := {| pane_type := pane_type (self w); object := o |};
             children := children w; history := history w;
             next_tick := next_tick w; trace := trace w |}).

(** The state after the calls [evs]. *)
Definition emit (evs : list event) (w : world) : world :=
  {| self := self w; children := children w; history := history w;
     next_tick := next_tick w; trace := trace w ++ evs |}.

Definition log (ev : event) : M unit := fun w => (Ok tt, emit [ev] w).

(** A call of a collaborator that returns nothing. *)
Definition call (c : collaborators) (ev : event) : M unit := fun w =>
  let w' := snd (log ev w) in
  match answer c (trace w) ev with
  | None => (Ok tt, w')
  | Some e => (Raise e, w')
  end.

Definition call_get_model (c : collaborators) : M model := fun w =>
  (_get_model c (trace w), snd (log call__get_model w)).

Definition get_self : M pane := fun w => (Ok (self w), w).
Definition get_children : M (list model) := fun w => (Ok (children w), w).
Definition get_history : M (list model) := fun w => (Ok (history w), w).

Definition set_children (l : list model) : M unit := fun w =>
  (Ok tt, {| self := self w; children := l; history := history w;
             next_tick := next_tick w; trace := trace w |}).

Definition set_history (l : list model) : M unit := fun w =>
  (Ok tt, {| self := self w; children := children w; history := l;
             next_tick := next_tick w; trace := trace w |}).

(** [doc.add_next_tick_callback(cb)] *)
Definition add_next_tick_callback (cb : update_models) : M unit := fun w =>
  (Ok tt, {| self := self w; children := children w; history := history w;
             next_tick := next_tick w ++ [cb]; trace := trace w |}).

(** [l.index(x)] *)
Fixpoint list_index (x : model) (l : list model) : option nat :=
  match l with
  | [] => None
  | y :: l' => if decide (y = x) then Some 0%nat else S <$> list_index x l'
  end.

Module PaneBase.

Definition precedence : Q := 0.5.
Definition _updates : bool := false.

(** Returns [None], which the callers test for truth. *)
Definition applies (e : env) (obj : pyobj) : result bool := Ok false.

(** The [for] loop of [get_pane_type] and the [raise] after it. *)
Fixpoint first_applicable (e : env) (obj : pyobj) (pane_types : list PaneType.t)
  : result pyclass :=
  match pane_types with
  | [] => Raise (TypeError (type_name obj +:+ " type could not be rendered."))
  | pane_type :: rest =>
      match PaneType.applies pane_type e obj with
      | Raise x => Raise x
      | Ok false => first_applicable e obj rest
      | Ok true => Ok (PaneClass pane_type)
      end
  end.

(** [descendents] stands for [param.concrete_descendents(PaneBase).values()],
    in the order that call enumerates the classes. *)
Definition get_pane_type (descendents : list PaneType.t) (e : env) (obj : pyobj)
  : result pyclass :=
  if is_Viewable obj then Ok (ViewableClass (type_name obj))
  else
    let pane_types := reverse (sorted descendents) in
    first_applicable e obj pane_types.

Definition __init__ (T : PaneType.t) (e : env) (object : pyobj) : result pane :=
  a ← PaneType.applies T e object;
  if negb a then
    let name := PaneType.__name__ T in
    Raise (ValueError (type_name object +:+ " object not understood by " +:+ name
                       +:+ ", expected " +:+ drop_last 5 name +:+ " object."))
  else Ok {| pane_type := T; object := Some object |}.

(** [super()._cleanup(model, final)], then [self.object = None] on the
    final call.  The assignment is the store alone: [_cleanup] is modelled
    for the calls made on the model the watcher of [_link_object] is
    registered for, where [Reactive._cleanup] has removed that watcher
    before the assignment.  A final call on another model, or on [None],
    leaves the watcher in place, and the assignment then runs
    [update_pane] as [set_object] below does; the properties of a final
    call are stated for the watched model. *)
Definition _cleanup (c : collaborators) (model : option model) (final : bool)
  : M unit :=
  call c (Reactive__cleanup model final);;
  if final then set_self_object None else mret tt.

Section LinkObject.
Variable c : collaborators.
(** Whether [comm] is given. *)
Variable comm : bool.
(** What [self._cleanup] resolves to in the class of [self]. *)
Variable self__cleanup : option model -> bool -> M unit.

(** Running one of the two closures [update_models]. *)
Definition run_update_models (cb : update_models) : M unit :=
  match cb with
  | update_in_place old_model => call c (call__update old_model)
  | replace_model old_model new_model =>
      children ← get_children;
      match list_index old_model children with
      | None => raise (ValueError "x is not in list")
      | Some index =>
          set_children (<[index := new_model]> children);;
          history ← get_history;
          set_history (<[0%nat := new_model]> history)
      end
  end.

Definition update_pane : M unit :=
  history ← get_history;
  match history with
  | [] => raise (IndexError "list index out of range")
  | old_model :: _ =>
      self ← get_self;
      update_models ←
        (if PaneType._updates (pane_type self)
         then mret (update_in_place old_model)
         else
           self__cleanup (Some old_model) false;;
           new_model ← call_get_model c;
           mret (replace_model old_model new_model));
      if comm then
        run_update_models update_models;;
        call c call_push
      else add_next_tick_callback update_models
  end.

(** The watcher starts from [history=[model]]. *)
Definition _link_object (model : model) : M unit := set_history [model].

(** The document's next tick: every queued callback runs once; what a
    callback raises is raised there, in the document's loop. *)
Fixpoint run_callbacks (cbs : list update_models) (w : world) : list exn * world :=
  match cbs with
  | [] => ([], w)
  | cb :: cbs' =>
      match run_update_models cb w with
      | (Ok _, w') => run_callbacks cbs' w'
      | (Raise e, w') =>
          let '(es, w'') := run_callbacks cbs' w' in (e :: es, w'')
      end
  end.

Definition tick (w : world) : list exn * world :=
  run_callbacks (next_tick w)
    {| self := self w; children := children w; history := history w;
       next_tick := []; trace := trace w |}.
End LinkObject.

End PaneBase.

(** ** Dimensions and widgets *)

(** A dimension value or key entry: a number or a string. *)
Inductive pyval : Type :=
| PyNum (q : Q)
| PyStr (s : string).

Definition isnumeric (v : pyval) : bool :=
  match v with
  | PyNum _ => true
  | PyStr _ => false
  end.

(** [holoviews.core.Dimension], the parameters the synthesis reads. *)
Module Dimension.
Record t : Type := {
  name : string;
  label : string;
  values : list pyval;
  range : option Q * option Q;
  default : option pyval;
  step : option Q;
  pprint_value : pyval -> string
}.

(** Dimensions compare by name and label. *)
Definition eqb (d1 d2 : t) : bool :=
  String.eqb (name d1) (name d2) && String.eqb (label d1) (label d2).
End Dimension.

Inductive widget_class : Type :=
| DiscreteSlider
| Select
| FloatSlider
| WidgetSubclass (name : string).

(** [options=]: an [OrderedDict] from label to value, or a list. *)
Inductive options : Type :=
| OrderedDict (items : list (string * pyval))
| OptionList (l : list pyval).

(** A widget, by the call that built it. *)
Inductive widget : Type :=
| (* widget_type(name=, options=, value=) *)
  OptionsWidget (widget_type : widget_class) (name : string) (opts : options)
                (value : pyval)
| (* widget_type(step=, name=, start=, end=, value=) *)
  RangeWidget (widget_type : widget_class) (step : Q) (name : string)
              (start end_ : option Q) (value : option pyval)
| (* a widget made by the caller *)
  GivenWidget (id : string).

(** What a Python variable of the synthesis can hold: a widget, a widget
    class, or some other object. *)
Inductive pyvalue : Type :=
| AWidget (w : widget)
| AWidgetType (widget_type : widget_class)
| Another (repr : string).

(** [sorted(vals)] on numbers: stable, ascending. *)
Definition pyval_le (a b : pyval) : bool :=
  match a, b with
  | PyNum x, PyNum y => Qle_bool x y
  | _, _ => true
  end.

Fixpoint insert_val (x : pyval) (l : list pyval) : list pyval :=
  match l with
  | [] => [x]
  | y :: ys => if pyval_le x y then x :: y :: ys else y :: insert_val x ys
  end.

Definition sorted_vals (l : list pyval) : list pyval := foldr insert_val [] l.

(** [zip] applied to the unpacked [keys]: the columns of the key tuples. *)
Fixpoint zip_star {A} (keys : list (list A)) : list (list A) :=
  match keys with
  | [] => []
  | [k] => (fun x => [x]) <$> k
  | k :: ks => zip_with cons k (zip_star ks)
  end.

(** [d[k] = v] on a dict kept in insertion order. *)
Fixpoint dict_set {K V} (eqb : K -> K -> bool) (k : K) (v : V) (d : list (K * V))
  : list (K * V) :=
  match d with
  | [] => [(k, v)]
  | (k', v') :: d' =>
      if eqb k' k then (k', v) :: d' else (k', v') :: dict_set eqb k v d'
  end.

(** [dict(pairs)] and [OrderedDict(pairs)] *)
Definition dict {K V} (eqb : K -> K -> bool) (pairs : list (K * V)) : list (K * V) :=
  foldl (fun d kv => dict_set eqb kv.1 kv.2 d) [] pairs.

(** [d.get(k, None)] *)
Fixpoint dict_get {K V} (eqb : K -> K -> bool) (k : K) (d : list (K * V)) : option V :=
  match d with
  | [] => None
  | (k', v) :: d' => if eqb k' k then Some v else dict_get eqb k d'
  end.

(** [for x in l: f(x)] *)
Fixpoint for_each {A} (f : A -> M unit) (l : list A) : M unit :=
  match l with
  | [] => mret tt
  | x :: l' => f x;; for_each f l'
  end.

(** ** The concrete classes *)

Module Bokeh.
Definition precedence : Q := 0.8.
Definition applies (e : env) (obj : pyobj) : result bool := Ok (is_LayoutDOM obj).
Definition cls : PaneType.t :=
  {| PaneType.__name__ := "Bokeh"; PaneType.precedence := precedence;
     PaneType._updates := PaneBase._updates; PaneType.applies := applies;
     PaneType._cleanup := PaneBase__cleanup |}.
End Bokeh.

Module HoloViews.
Definition precedence : Q := 0.8.

Definition applies (e : env) (obj : pyobj) : result bool :=
  if negb (loaded e "holoviews") then Ok false
  else Ok (is_Dimensioned obj).

Definition cls : PaneType.t :=
  {| PaneType.__name__ := "HoloViews"; PaneType.precedence := precedence;
     PaneType._updates := PaneBase._updates; PaneType.applies := applies;
     PaneType._cleanup := HoloViews__cleanup |}.

Definition _cleanup (c : collaborators) (model : option model) (final : bool)
  : M unit :=
  object ← get_self_object;
  match object with
  | None => raise (AttributeError "'NoneType' object has no attribute 'traverse'")
  | Some object =>
      let dmaps := traverse_DynamicMap object in
      for_each (fun dmap =>
        for_each (fun stream =>
          for_each (fun sub =>
            if ismethod sub then
              if bool_decide (owner_state sub = model)
              then call c (owner_cleanup (owner sub))
              else mret tt
            else mret tt) stream) dmap) dmaps;;
      PaneBase._cleanup c model final
  end.

(** [Dimension('Frame')] *)
Definition is_Frame (d : Dimension.t) : bool :=
  String.eqb (Dimension.name d) "Frame" && String.eqb (Dimension.label d) "Frame".

(** [dims == [Dimension('Frame')] and keys == [(0,)]] *)
Definition static_frame (dims : list Dimension.t) (keys : list (list pyval)) : bool :=
  match dims, keys with
  | [d], [[PyNum k]] => is_Frame d && Qeq_bool k 0
  | _, _ => false
  end.

Section Synthesis.
Variable widget_types : gmap string pyvalue.
(** [values = dict(zip(dims, zip( *keys)))] *)
Variable values : list (Dimension.t * list pyval).

(** From [if vals:] to [widgets.append(widget)]. *)
Definition build (dim : Dimension.t) (vals : list pyval)
    (widget_type : option widget_class) (widgets : list pyvalue)
    (widget : option pyvalue) : result (list pyvalue * option pyvalue) :=
  let widget :=
    match vals with
    | _ :: _ =>
        let '(vals, options, widget_type) :=
          if forallb isnumeric vals then
            let vals := sorted_vals vals in
            let labels := Dimension.pprint_value dim <$> vals in
            (vals, OrderedDict (dict String.eqb (zip labels vals)),
             default DiscreteSlider widget_type)
          else (vals, OptionList vals, default Select widget_type) in
        let default_ :=
          match Dimension.default dim with
          | None => hd (PyStr "") vals
          | Some d => d
          end in
        Some (AWidget (OptionsWidget widget_type (Dimension.label dim) options default_))
    | [] =>
        match Dimension.range dim with
        | (None, None) => widget
        | (lo, hi) =>
            let default_ :=
              match Dimension.default dim with
              | None => PyNum <$> lo
              | Some d => Some d
              end in
            let step := default 0.1%Q (Dimension.step dim) in
            let widget_type := default FloatSlider widget_type in
            Some (AWidget (RangeWidget widget_type step (Dimension.label dim)
                                       lo hi default_))
        end
    end in
  match widget with
  | None =>
      Raise (UnboundLocalError "local variable 'widget' referenced before assignment")
  | Some w => Ok (widgets ++ [w], widget)
  end.

(** One turn of [for dim in dims], on the list [widgets] and the
    variable [widget] that the turns share. *)
Definition for_dim (dim : Dimension.t) (widgets : list pyvalue)
    (widget : option pyvalue) : result (list pyvalue * option pyvalue) :=
  let vals :=
    match Dimension.values dim with
    | _ :: _ => Dimension.values dim
    | [] => default [] (dict_get Dimension.eqb dim values)
    end in
  match widget_types !! Dimension.name dim with
  | Some (AWidget w) => Ok (widgets ++ [AWidget w], Some (AWidget w))
  | Some (AWidgetType t) => build dim vals (Some t) widgets (Some (AWidgetType t))
  | Some (Another r) =>
      Raise (ValueError ("Explicit widget definitions expected "
                         +:+ "to be a widget instance or type, "
                         +:+ Dimension.name dim
                         +:+ " dimension widget declared as " +:+ r +:+ "."))
  | None => build dim vals None widgets widget
  end.

Fixpoint for_dims (dims : list Dimension.t) (widgets : list pyvalue)
    (widget : option pyvalue) : result (list pyvalue) :=
  match dims with
  | [] => Ok widgets
  | dim :: dims' =>
      '(widgets, widget) ← for_dim dim widgets widget;
      for_dims dims' widgets widget
  end.
End Synthesis.

(** [dims, keys] are what [unique_dimkeys(object)] returns. *)
Definition widgets_from_dimensions (dims : list Dimension.t)
    (keys : list (list pyval)) (widget_types : gmap string pyvalue)
  : result (list pyvalue) :=
  if static_frame dims keys then Ok []
  else
    let values := dict Dimension.eqb (zip dims (zip_star keys)) in
    for_dims widget_types values dims [] None.
End HoloViews.

Module DivPaneBase.
Definition _updates : bool := true.
End DivPaneBase.

Module Image.
Definition imgtype : string := "None".

(** [applies], for the [imgtype] of the class it is called on. *)
Definition applies (imgtype : string) (e : env) (obj : pyobj) : result bool :=
  Ok (hasattr obj ("_repr_" +:+ imgtype +:+ "_") ||
      match text obj with
      | Some s =>
          (isfile e s && endswith s ("." +:+ imgtype)) ||
          ((startswith s "http://" || startswith s "https://")
           && endswith s ("." +:+ imgtype))
      | None => false
      end).

Definition cls : PaneType.t :=
  {| PaneType.__name__ := "Image"; PaneType.precedence := PaneBase.precedence;
     PaneType._updates := DivPaneBase._updates;
     PaneType.applies := applies imgtype;
     PaneType._cleanup := PaneBase__cleanup |}.
End Image.

Module PNG.
Definition imgtype : string := "png".

Definition _imgshape (data : list Byte.byte) : result (Z * Z) :=
  '(w, h) ← unpack_BE_LL (slice 16 24 data);
  Ok (w, h).

Definition cls : PaneType.t :=
  {| PaneType.__name__ := "PNG"; PaneType.precedence := PaneBase.precedence;
     PaneType._updates := DivPaneBase._updates;
     PaneType.applies := Image.applies imgtype;
     PaneType._cleanup := PaneBase__cleanup |}.
End PNG.

Module GIF.
Definition imgtype : string := "gif".

Definition _imgshape (data : list Byte.byte) : result (Z * Z) :=
  '(w, h) ← unpack_LE_HH (slice 6 10 data);
  Ok (w, h).

Definition cls : PaneType.t :=
  {| PaneType.__name__ := "GIF"; PaneType.precedence := PaneBase.precedence;
     PaneType._updates := DivPaneBase._updates;
     PaneType.applies := Image.applies imgtype;
     PaneType._cleanup := PaneBase__cleanup |}.
End GIF.

Module JPG.
Definition imgtype : string := "jpg".

(** [while (ord(c) != 0xFF): c = b.read(1)], with the [c] and [b] it
    ends on. *)
Fixpoint until_FF (c b : list Byte.byte) {struct b}
  : result (list Byte.byte * list Byte.byte) :=
  o ← ord1 c;
  if (o =? 255)%Z then Ok (c, b)
  else
    match b with
    | [] => _ ← ord1 []; Ok ([], [])
    | x :: b' => until_FF [x] b'
    end.

(** [while (ord(c) == 0xFF): c = b.read(1)] *)
Fixpoint while_FF (c b : list Byte.byte) {struct b}
  : result (list Byte.byte * list Byte.byte) :=
  o ← ord1 c;
  if (o =? 255)%Z then
    match b with
    | [] => _ ← ord1 []; Ok ([], [])
    | x :: b' => while_FF [x] b'
    end
  else Ok (c, b).

(** The outer [while]; the result is the binding of [(w, h)] when the
    loop is left.  Every turn reads at least one byte, so [fuel] above
    the number of unread bytes is never used up. *)
Fixpoint scan (fuel : nat) (c b : list Byte.byte) : result (option (Z * Z)) :=
  match fuel with
  | O => Raise (Exception "unreachable")
  | S fuel' =>
      match c with
      | [] => Ok None
      | _ :: _ =>
          o ← ord1 c;
          if (o =? 218)%Z then Ok None
          else
            '(c, b) ← until_FF c b;
            '(c, b) ← while_FF c b;
            o ← ord1 c;
            if (192 <=? o)%Z && (o <=? 195)%Z then
              let '(_, b) := read 3 b in
              let '(buf, b) := read 4 b in
              '(h, w) ← unpack_BE_HH buf;
              Ok (Some (w, h))
            else
              let '(buf, b) := read 2 b in
              n ← unpack_BE_H buf;
              let '(_, b) := read (n - 2) b in
              let '(c, b) := read 1 b in
              scan fuel' c b
      end
  end.

Definition _imgshape (data : list Byte.byte) : result (Z * Z) :=
  let b := data in
  let '(_, b) := read 2 b in
  let '(c, b) := read 1 b in
  wh ← scan (S (length b)) c b;
  match wh with
  | None => Raise (UnboundLocalError "local variable 'w' referenced before assignment")
  | Some (w, h) => Ok (w, h)
  end.

Definition cls : PaneType.t :=
  {| PaneType.__name__ := "JPG"; PaneType.precedence := PaneBase.precedence;
     PaneType._updates := DivPaneBase._updates;
     PaneType.applies := Image.applies imgtype;
     PaneType._cleanup := PaneBase__cleanup |}.
End JPG.

Module SVG.
Definition imgtype : string := "svg".

Definition applies (e : env) (obj : pyobj) : result bool :=
  a ← Image.applies imgtype e obj;
  Ok (a || match text obj with
           | Some s => startswith (lstrip s) "<svg"
           | None => false
           end).

Definition cls : PaneType.t :=
  {| PaneType.__name__ := "SVG"; PaneType.precedence := PaneBase.precedence;
     PaneType._updates := DivPaneBase._updates;
     PaneType.applies := applies;
     PaneType._cleanup := PaneBase__cleanup |}.
End SVG.

Module Matplotlib.
Definition applies (e : env) (obj : pyobj) : result bool :=
  if negb (loaded e "matplotlib") then Ok false
  else
    let is_fig := is_Figure obj in
    if is_fig && canvas_is_None obj
    then Raise (ValueError ("Matplotlib figure has no canvas and "
                            +:+ "cannot be rendered."))
    else Ok is_fig.

Definition cls : PaneType.t :=
  {| PaneType.__name__ := "Matplotlib"; PaneType.precedence := PaneBase.precedence;
     PaneType._updates := DivPaneBase._updates;
     PaneType.applies := applies;
     PaneType._cleanup := PaneBase__cleanup |}.
End Matplotlib.

Module RGGPlot.
Definition applies (e : env) (obj : pyobj) : result bool :=
  Ok (String.eqb (type_name obj) "GGPlot" && hasattr obj "r_repr").

Definition cls : PaneType.t :=
  {| PaneType.__name__ := "RGGPlot"; PaneType.precedence := PaneBase.precedence;
     PaneType._updates := DivPaneBase._updates;
     PaneType.applies := applies;
     PaneType._cleanup := PaneBase__cleanup |}.
End RGGPlot.

Module HTML.
Definition precedence : Q := 0.2.

Definition applies (e : env) (obj : pyobj) : result bool :=
  Ok (hasattr obj "_repr_html_" ||
      (isinstance_basestring obj || isinstance_unicode obj)).

Definition cls : PaneType.t :=
  {| PaneType.__name__ := "HTML"; PaneType.precedence := precedence;
     PaneType._updates := DivPaneBase._updates;
     PaneType.applies := applies;
     PaneType._cleanup := PaneBase__cleanup |}.
End HTML.

Module Str.
Definition precedence : Q := 0.

Definition applies (e : env) (obj : pyobj) : result bool := Ok true.

Definition cls : PaneType.t :=
  {| PaneType.__name__ := "Str"; PaneType.precedence := precedence;
     PaneType._updates := DivPaneBase._updates;
     PaneType.applies := applies;
     PaneType._cleanup := PaneBase__cleanup |}.
End Str.

Module YT.
Definition precedence : Q := 0.5.

Definition applies (e : env) (obj : pyobj) : result bool :=
  Ok (contains "yt" (repr obj) && hasattr obj "plots" && hasattr obj "_repr_html_").

Definition cls : PaneType.t :=
  {| PaneType.__name__ := "YT"; PaneType.precedence := precedence;
     PaneType._updates := DivPaneBase._updates;
     PaneType.applies := applies;
     PaneType._cleanup := PaneBase__cleanup |}.
End YT.

(** ** The classes together, and the binding on a pane of any of them *)

(** The concrete subclasses of [PaneBase] declared in the file, in the
    order in which [param.concrete_descendents] lists them: breadth first
    below [PaneBase], the subclasses of a class in the order of their
    declaration.  So the children of [PaneBase] come first ([Bokeh],
    [HoloViews]; [DivPaneBase] sets [__abstract] and is left out), then
    those of [DivPaneBase] ([Image], which does not set it, [HTML], [Str]),
    then those of [Image], of [HTML] and of [PNG]. *)
Definition concrete_descendents : list PaneType.t :=
  [Bokeh.cls; HoloViews.cls; Image.cls; HTML.cls; Str.cls;
   PNG.cls; GIF.cls; JPG.cls; SVG.cls; YT.cls; Matplotlib.cls; RGGPlot.cls].

(** [self._cleanup], resolved in the class of [self]. *)
Definition self__cleanup (c : collaborators) (self : pane)
  : option model -> bool -> M unit :=
  match PaneType._cleanup (pane_type self) with
  | PaneBase__cleanup => PaneBase._cleanup c
  | HoloViews__cleanup => HoloViews._cleanup c
  end.

(** The watcher of [_link_object], on the pane of the state. *)
Definition update_pane (c : collaborators) (comm : bool) : M unit :=
  self ← get_self;
  PaneBase.update_pane c comm (self__cleanup c self).

(** [self.object = value]: the parameter is set and the watcher runs. *)
Definition set_object (c : collaborators) (comm : bool) (value : option pyobj)
  : M unit :=
  set_self_object value;;
  update_pane c comm.

(** The change applied: at once when there is a comm, on the document's
    next tick when there is none.  The result of the assignment, what the
    tick raised, and the state reached. *)
Definition apply_change (c : collaborators) (comm : bool) (value : option pyobj)
    (w : world) : result unit * list exn * world :=
  let '(r, w1) := set_object c comm value w in
  if comm then (r, [], w1)
  else let '(raised, w2) := PaneBase.tick c w1 in (r, raised, w2).

(** What computing the update raises on a change, when it raises: the
    in-place [_update], or else [_cleanup] or [_get_model]. *)
Definition update_raises (c : collaborators) (w : world) (old_model : model)
  : option exn :=
  if PaneType._updates (pane_type (self w))
  then answer c (trace w) (call__update old_model)
  else
    match self__cleanup c (self w) (Some old_model) false w with
    | (Raise e, _) => Some e
    | (Ok _, w') =>
        match _get_model c (trace w') with
        | Raise e => Some e
        | Ok _ => None
        end
    end.

(** The number of [push(doc, comm)] calls in a trace. *)
Fixpoint pushes (tr : list event) : nat :=
  match tr with
  | [] => 0
  | call_push :: tr' => S (pushes tr')
  | _ :: tr' => pushes tr'
  end.

(** [self._cleanup(model, final)] *)
Definition cleanup (c : collaborators) (model : option model) (final : bool) : M unit :=
  self ← get_self;
  self__cleanup c self model final.

(** ** Objects, environments and collaborators used in the examples *)

Definition plain_object (type_name repr : string) : pyobj :=
  {| type_name := type_name; is_Viewable := false; is_LayoutDOM := false;
     is_Dimensioned := false; is_Figure := false; canvas_is_None := false;
     attributes := []; text := None; repr := repr;
     traverse_DynamicMap := [] |}.

Definition with_attributes (attrs : list string) (o : pyobj) : pyobj :=
  {| type_name := type_name o; is_Viewable := is_Viewable o;
     is_LayoutDOM := is_LayoutDOM o; is_Dimensioned := is_Dimensioned o;
     is_Figure := is_Figure o; canvas_is_None := canvas_is_None o;
     attributes := attrs; text := text o; repr := repr o;
     traverse_DynamicMap := traverse_DynamicMap o |}.

(** The integer [3]. *)
Definition int_3 : pyobj := plain_object "int" "3".

(** An object that can draw itself both as PNG and as SVG. *)
Definition png_and_svg : pyobj :=
  with_attributes ["_repr_png_"; "_repr_svg_"] (plain_object "Symbol" "x").

(** A matplotlib [Figure] that has no canvas. *)
Definition figure_without_canvas : pyobj :=
  {| type_name := "Figure"; is_Viewable := false; is_LayoutDOM := false;
     is_Dimensioned := false; is_Figure := true; canvas_is_None := true;
     attributes := []; text := None; repr := "Figure(640x480)";
     traverse_DynamicMap := [] |}.

(** A HoloViews element without streams. *)
Definition a_Curve : pyobj :=
  {| type_name := "Curve"; is_Viewable := false; is_LayoutDOM := false;
     is_Dimensioned := true; is_Figure := false; canvas_is_None := false;
     attributes := []; text := None; repr := ":Curve   [x]   (y)";
     traverse_DynamicMap := [] |}.

(** Nothing imported, no files. *)
Definition bare_env : env := {| sys_modules := []; isfile := fun _ => false |}.

(** matplotlib and holoviews imported. *)
Definition plotting_env : env :=
  {| sys_modules := ["holoviews"; "matplotlib"]; isfile := fun _ => false |}.

(** ** Writing image headers

    The inverse of what the [_imgshape] methods read: the byte of a
    number, the packed fields, and the marker segments of a JPEG. *)

Definition chr (z : Z) : Byte.byte :=
  match Byte.of_N (Z.to_N (z mod 256)) with
  | Some b => b
  | None => Byte.x00
  end.

(** [struct.pack('>L', z)] *)
Definition pack_BE_L (z : Z) : list Byte.byte :=
  [chr (z / 16777216); chr (z / 65536); chr (z / 256); chr z].

(** [struct.pack('>H', z)] *)
Definition pack_BE_H (z : Z) : list Byte.byte := [chr (z / 256); chr z].

(** [struct.pack('<H', z)] *)
Definition pack_LE_H (z : Z) : list Byte.byte := [chr z; chr (z / 256)].

(** The test [_imgshape] makes on a marker to take its segment for the
    frame header. *)
Definition is_SOF (marker : Byte.byte) : bool :=
  (192 <=? ord marker)%Z && (ord marker <=? 195)%Z.

(** A marker segment: 0xFF, the marker, the two-byte length that counts
    itself, and the payload. *)
Record segment : Type := {
  marker : Byte.byte;
  payload : list Byte.byte
}.

Definition segment_bytes (s : segment) : list Byte.byte :=
  [Byte.xff; marker s] ++ pack_BE_H (Z.of_nat (length (payload s)) + 2) ++ payload s.

(** A segment the scan steps over. *)
Definition skipped (s : segment) : Prop :=
  marker s <> Byte.xff /\ is_SOF (marker s) = false /\
  (Z.of_nat (length (payload s)) + 2 < 65536)%Z.

(** A frame header: 0xFF, the marker, length, sample precision, height,
    width. *)
Definition frame_header (marker l1 l2 precision : Byte.byte) (h w : Z) : list Byte.byte :=
  [Byte.xff; marker; l1; l2; precision] ++ pack_BE_H h ++ pack_BE_H w.

(** A PNG header of width 100 and height 50: signature, IHDR length and
    tag, then the two fields. *)
Definition png_100x50 : list Byte.byte :=
  [Byte.x89; Byte.x50; Byte.x4e; Byte.x47; Byte.x0d; Byte.x0a; Byte.x1a; Byte.x0a;
   Byte.x00; Byte.x00; Byte.x00; Byte.x0d; Byte.x49; Byte.x48; Byte.x44; Byte.x52;
   Byte.x00; Byte.x00; Byte.x00; Byte.x64; Byte.x00; Byte.x00; Byte.x00; Byte.x32;
   Byte.x08; Byte.x02; Byte.x00; Byte.x00; Byte.x00].

(** A GIF header of width 100 and height 50: [GIF89a], then the logical
    screen size. *)
Definition gif_100x50 : list Byte.byte :=
  [Byte.x47; Byte.x49; Byte.x46; Byte.x38; Byte.x39; Byte.x61;
   Byte.x64; Byte.x00; Byte.x32; Byte.x00; Byte.x80; Byte.x00; Byte.x00].

(** A JPEG of width 100 and height 50: SOI, an APP0 segment, a
    quantisation table segment, and the baseline frame header. *)
Definition jfif_APP0 : segment :=
  {| marker := Byte.xe0;
     payload := [Byte.x4a; Byte.x46; Byte.x49; Byte.x46; Byte.x00; Byte.x01; Byte.x01;
                 Byte.x00; Byte.x00; Byte.x01; Byte.x00; Byte.x01; Byte.x00; Byte.x00] |}.

Definition short_DQT : segment :=
  {| marker := Byte.xdb; payload := [Byte.x00; Byte.x10; Byte.x0b; Byte.x0c] |}.

Definition jpg_100x50 : list Byte.byte :=
  [Byte.xff; Byte.xd8] ++ segment_bytes jfif_APP0 ++ segment_bytes short_DQT
  ++ frame_header Byte.xc0 Byte.x00 Byte.x11 Byte.x08 50 100
  ++ [Byte.x03; Byte.x01; Byte.x22; Byte.x00].

(** A JPEG of width 100 and height 50 whose frame is arithmetic coded:
    SOI, APP0, the frame header under the marker SOF9 (0xC9) with its
    three components, the scan header, and EOI. *)
Definition SOF9_100x50 : segment :=
  {| marker := Byte.xc9;
     payload := [Byte.x08; Byte.x00; Byte.x32; Byte.x00; Byte.x64; Byte.x03;
                 Byte.x01; Byte.x22; Byte.x00; Byte.x02; Byte.x11; Byte.x01;
                 Byte.x03; Byte.x11; Byte.x01] |}.

Definition SOS : segment :=
  {| marker := Byte.xda;
     payload := [Byte.x03; Byte.x01; Byte.x00; Byte.x02; Byte.x11; Byte.x03;
                 Byte.x11; Byte.x00; Byte.x3f; Byte.x00] |}.

Definition jpg_SOF9_100x50 : list Byte.byte :=
  [Byte.xff; Byte.xd8] ++ segment_bytes jfif_APP0 ++ segment_bytes SOF9_100x50
  ++ segment_bytes SOS ++ [Byte.xff; Byte.xd9].

(** The segments [segs] one after the other, then [fh]. *)
Definition header_stream (segs : list segment) (fh : list Byte.byte) : list Byte.byte :=
  concat (segment_bytes <$> segs) ++ fh.

(** ** Dimensions used in the examples *)

(** A stand-in for HoloViews' value formatter. *)
Definition pprint (v : pyval) : string :=
  match v with
  | PyStr s => s
  | PyNum q => pretty (Qnum q) +:+ "/" +:+ pretty (Zpos (Qden q))
  end.

Definition color : Dimension.t :=
  {| Dimension.name := "color"; Dimension.label := "color";
     Dimension.values := [PyStr "red"; PyStr "green"; PyStr "blue"];
     Dimension.range := (None, None); Dimension.default := None;
     Dimension.step := None; Dimension.pprint_value := pprint |}.

Definition level : Dimension.t :=
  {| Dimension.name := "level"; Dimension.label := "level";
     Dimension.values := [];
     Dimension.range := (Some 0%Q, Some 10%Q); Dimension.default := Some (PyNum 4);
     Dimension.step := Some 2%Q; Dimension.pprint_value := pprint |}.

(** A range without step and default. *)
Definition depth : Dimension.t :=
  {| Dimension.name := "depth"; Dimension.label := "depth";
     Dimension.values := [];
     Dimension.range := (Some 0%Q, Some 10%Q); Dimension.default := None;
     Dimension.step := None; Dimension.pprint_value := pprint |}.

(** A dimension with no values and no range. *)
Definition free : Dimension.t :=
  {| Dimension.name := "free"; Dimension.label := "free";
     Dimension.values := [];
     Dimension.range := (None, None); Dimension.default := None;
     Dimension.step := None; Dimension.pprint_value := pprint |}.

Definition color_select : pyvalue :=
  AWidget (OptionsWidget Select "color"
             (OptionList [PyStr "red"; PyStr "green"; PyStr "blue"]) (PyStr "red")).

Definition level_slider : pyvalue :=
  AWidget (RangeWidget FloatSlider 2%Q "level" (Some 0%Q) (Some 10%Q) (Some (PyNum 4))).

(** ** Panes, states and collaborators used in the examples *)

(** The [owner.cleanup()] calls that [HoloViews._cleanup] makes for
    [model] on [object], in order. *)
Definition stream_cleanups (object : pyobj) (model : option model) : list event :=
  dmap ← traverse_DynamicMap object;
  stream ← dmap;
  sub ← stream;
  if ismethod sub && bool_decide (owner_state sub = model)
  then [owner_cleanup (owner sub)] else [].

(** The calls that [self._cleanup(model, final)] makes on a pane of class
    [T] holding [object]. *)
Definition cleanup_calls (T : PaneType.t) (object : pyobj) (model : option model)
    (final : bool) : list event :=
  match PaneType._cleanup T with
  | PaneBase__cleanup => []
  | HoloViews__cleanup => stream_cleanups object model
  end ++ [Reactive__cleanup model final].

(** Collaborators that always return; [_get_model] hands out model 8. *)
Definition quiet : collaborators :=
  {| answer := fun _ _ => None; _get_model := fun _ => Ok 8%nat |}.

(** Collaborators whose [_update] raises, as that of a PNG pane does on
    bytes too short to hold the header. *)
Definition failing_update : collaborators :=
  {| answer := fun _ ev =>
       match ev with
       | call__update _ => Some (struct_error "unpack requires a buffer of 8 bytes")
       | _ => None
       end;
     _get_model := fun _ => Ok 8%nat |}.

(** Collaborators whose [_get_model] raises. *)
Definition failing_get_model : collaborators :=
  {| answer := fun _ _ => None;
     _get_model := fun _ => Raise (Exception "backend not initialized") |}.

(** A pane of class [T] on [object], displayed by model 7, the second of
    three children of its parent. *)
Definition displayed (T : PaneType.t) (object : pyobj) : world :=
  (PaneBase._link_object 7%nat
     {| self := {| pane_type := T; object := Some object |};
        children := [6; 7; 9]%nat; history := []; next_tick := []; trace := [] |}).2.

(** An object with a [_repr_png_] method. *)
Definition a_picture : pyobj :=
  with_attributes ["_repr_png_"] (plain_object "Picture" "<Picture>").

(** ** Predicates used in the statements *)

Abbreviation prec := PaneType.precedence.

(** Ascending in precedence. *)
Inductive ascending : list PaneType.t -> Prop :=
| ascending_nil : ascending []
| ascending_cons x l :
    Forall (fun y => (prec x <= prec y)%Q) l -> ascending l -> ascending (x :: l).

(** What a call below this file cannot change: the children of the
    parent, the history of the watcher, the tick queue, the number of
    pushes, and the class of the pane. *)
Definition framed (w w' : world) : Prop :=
  children w' = children w /\ history w' = history w /\
  next_tick w' = next_tick w /\ pushes (trace w') = pushes (trace w) /\
  pane_type (self w') = pane_type (self w).

(** ** Construction through [Pane] *)

(** What a constructor returns: the pane, and the [widget_box] that
    [HoloViews.__init__] adds to it. *)
Record instance : Type := {
  as_pane : pane;
  widget_box : option (list pyvalue)
}.

(** [HoloViews.__init__]: the constructor of [PaneBase], then an empty
    [WidgetBox()]. *)
Definition HoloViews___init__ (T : PaneType.t) (e : env) (object : pyobj)
  : result instance :=
  p ← PaneBase.__init__ T e object;
  Ok {| as_pane := p; widget_box := Some [] |}.

(** Calling the class [T]: the [__init__] it resolves to.  The classes
    that take [HoloViews.__init__] are those that take
    [HoloViews._cleanup]. *)
Definition construct (T : PaneType.t) (e : env) (object : pyobj) : result instance :=
  match PaneType._cleanup T with
  | HoloViews__cleanup => HoloViews___init__ T e object
  | PaneBase__cleanup =>
      p ← PaneBase.__init__ T e object;
      Ok {| as_pane := p; widget_box := None |}
  end.

(** [Pane(obj)], without keyword arguments: a Viewable is returned as it
    is, anything else is wrapped by the class that [get_pane_type]
    selects.  ([get_pane_type] gives the class of a Viewable only for a
    Viewable, which does not come here.) *)
Definition Pane (descendents : list PaneType.t) (e : env) (obj : pyobj)
  : result (pyobj + instance) :=
  if is_Viewable obj then Ok (inl obj)
  else
    cls ← PaneBase.get_pane_type descendents e obj;
    match cls with
    | PaneClass T => p ← construct T e obj; Ok (inr p)
    | ViewableClass _ => Ok (inl obj)
    end.

(** ** Properties of the Div panes *)

(** A value in the keyword arguments of a Bokeh [Div]. *)
Inductive propval : Type :=
| PInt (z : Z)
| PStr (s : string)
| PStyle (css : list (string * string)).

(** The parameters [width], [height], [sizing_mode] and [style] of a
    pane below [DivPaneBase]. *)
Module Params.
Record t : Type := {
  width : option Z;
  height : option Z;
  sizing_mode : option string;
  style : option (list (string * string))
}.
End Params.

(** [dict(p, k=v)] on an optional value: the key is set when there is
    one. *)
Definition set_if_given (k : string) (v : option propval) (p : gmap string propval)
  : gmap string propval :=
  match v with
  | Some v => <[k := v]> p
  | None => p
  end.

(** [DivPaneBase._get_properties]: the parameters that are not [None]. *)
Definition DivPaneBase__get_properties (self : Params.t) : gmap string propval :=
  set_if_given "style" (PStyle <$> Params.style self)
    (set_if_given "sizing_mode" (PStr <$> Params.sizing_mode self)
       (set_if_given "height" (PInt <$> Params.height self)
          (set_if_given "width" (PInt <$> Params.width self) ∅))).

Section ImageProperties.
(** [base64.b64encode(data).decode("utf-8")] *)
Variable b64encode : list Byte.byte -> string.
(** [int((a/b)*c)] for a divisor [b] that is not zero; the quotient is
    an integer quotient or a float with the version of Python. *)
Variable scale : Z -> Z -> Z -> Z.

(** [int((a/b)*c)] *)
Definition scaled (a b c : Z) : result Z :=
  if (b =? 0)%Z then Raise (Exception "ZeroDivisionError")
  else Ok (scale a b c).

(** [Image._get_properties], for the [imgtype] and [_imgshape] of the
    class of [self]; [img] is what [self._img()] returns or raises. *)
Definition Image__get_properties (imgtype : string)
    (_imgshape : list Byte.byte -> result (Z * Z))
    (self : Params.t) (img : result (list Byte.byte))
  : result (gmap string propval) :=
  let p := DivPaneBase__get_properties self in
  data ← img;
  '(width, height) ← _imgshape data;
  '(width, height) ←
    match Params.width self with
    | Some self_width =>
        height ← match Params.height self with
                 | None => scaled self_width width height
                 | Some self_height => Ok self_height
                 end;
        Ok (self_width, height)
    | None =>
        match Params.height self with
        | Some self_height =>
            width ← scaled self_height height width;
            Ok (width, self_height)
        | None => Ok (width, height)
        end
    end;
  let b64 := b64encode data in
  let src := "data:image/" +:+ imgtype +:+ ";base64," +:+ b64 in
  let html := "<img src='" +:+ src +:+ "' width=" +:+ pretty width
              +:+ " height=" +:+ pretty height +:+ "></img>" in
  Ok (<["text" := PStr html]> (<["height" := PInt height]>
        (<["width" := PInt width]> p))).
End ImageProperties.

(** The loop of [YT._get_properties] over [self.object.plots.items()]:
    a plot comes with the bytes of its [_repr_png_()], when it has that
    method.  The state is [(width, height)]. *)
Fixpoint YT_plot_sizes (plots : list (string * option (list Byte.byte)))
    (width height : Z) : result (Z * Z) :=
  match plots with
  | [] => Ok (width, height)
  | (k, v) :: plots' =>
      match v with
      | Some img =>
          '(w, h) ← PNG._imgshape img;
          YT_plot_sizes plots' (Z.max w width) (height + h)%Z
      | None => YT_plot_sizes plots' width height
      end
  end.

(** [YT._get_properties]; [p] is what [HTML._get_properties] returned. *)
Definition YT__get_properties (self : Params.t) (p : gmap string propval)
    (plots : list (string * option (list Byte.byte)))
  : result (gmap string propval) :=
  '(width, height) ←
    match Params.width self, Params.height self with
    | Some _, Some _ => Ok (0, 0)%Z
    | _, _ => YT_plot_sizes plots 0 0
    end;
  let p := match Params.width self with
           | None => <["width" := PInt width]> p
           | Some _ => p
           end in
  let p := match Params.height self with
           | None => <["height" := PInt height]> p
           | Some _ => p
           end in
  Ok p.

(** ** More predicates used in the statements *)


(** What a change can do to the children of the parent: nothing, or a
    new entry at the index of the watched model. *)
Definition one_slot (old : option model) (before after : list model) : Prop :=
  after = before \/
  exists m i new, old = Some m /\ list_index m before = Some i /\
                  after = <[i := new]> before.

(** The widths and heights that [PNG._imgshape] reads from the plots that
    have a PNG. *)
Definition png_shapes (plots : list (string * option (list Byte.byte))) : list (Z * Z) :=
  omap (fun plot => img ← plot.2;
                    match PNG._imgshape img with
                    | Ok wh => Some wh
                    | Raise _ => None
                    end) plots.

Definition readable (plot : string * option (list Byte.byte)) : Prop :=
  match plot.2 with
  | Some img => (24 <= length img)%nat
  | None => True
  end.



(** ** More objects used in the examples *)

(** The string ["<b>hello</b>"]. *)
Definition a_string : pyobj :=
  {| type_name := "str"; is_Viewable := false; is_LayoutDOM := false;
     is_Dimensioned := false; is_Figure := false; canvas_is_None := false;
     attributes := []; text := Some "<b>hello</b>"; repr := "'<b>hello</b>'";
     traverse_DynamicMap := [] |}.

(** The address of a PNG file. *)
Definition a_url : pyobj :=
  {| type_name := "str"; is_Viewable := false; is_LayoutDOM := false;
     is_Dimensioned := false; is_Figure := false; canvas_is_None := false;
     attributes := []; text := Some "https://example.org/logo.png";
     repr := "'https://example.org/logo.png'";
     traverse_DynamicMap := [] |}.


(** A dimension with the numeric values 3, 1, 2. *)
Definition count : Dimension.t :=
  {| Dimension.name := "count"; Dimension.label := "count";
     Dimension.values := [PyNum 3; PyNum 1; PyNum 2];
     Dimension.range := (None, None); Dimension.default := None;
     Dimension.step := None; Dimension.pprint_value := pprint |}.

(** A dimension without values, range and default. *)
Definition kind : Dimension.t :=
  {| Dimension.name := "kind"; Dimension.label := "kind";
     Dimension.values := [];
     Dimension.range := (None, None); Dimension.default := None;
     Dimension.step := None; Dimension.pprint_value := pprint |}.

(** Overrides: widgets made by the caller for [color] and [free]. *)
Definition given_widgets : gmap string pyvalue :=
  <["color" := AWidget (GivenWidget "picker")]>
    (<["free" := AWidget (GivenWidget "knob")]> ∅).

(** [Dimension('Frame')], the dimension of an object that is not a map,
    and a widget instance given for it. *)
Definition Frame : Dimension.t :=
  {| Dimension.name := "Frame"; Dimension.label := "Frame";
     Dimension.values := [];
     Dimension.range := (None, None); Dimension.default := None;
     Dimension.step := None; Dimension.pprint_value := pprint |}.

Definition Frame_widget : gmap string pyvalue :=
  <["Frame" := AWidget (GivenWidget "player")]> ∅.

(** Parameters of a Div pane: nothing set, both sizes set, only the
    width set. *)
Definition unsized : Params.t :=
  {| Params.width := None; Params.height := None;
     Params.sizing_mode := Some "fixed"; Params.style := None |}.

Definition sized : Params.t :=
  {| Params.width := Some 300%Z; Params.height := Some 200%Z;
     Params.sizing_mode := None; Params.style := None |}.

Definition wide : Params.t :=
  {| Params.width := Some 300%Z; Params.height := None;
     Params.sizing_mode := None; Params.style := None |}.

(** A PNG header of width 0 and height 50, and one cut after the
    signature. *)
Definition png_0x50 : list Byte.byte :=
  take 16 png_100x50 ++ pack_BE_L 0 ++ pack_BE_L 50.

Definition png_cut : list Byte.byte := take 8 png_100x50.

(** Stand-ins for [base64.b64encode] and for the scaling. *)
Definition no_b64 (data : list Byte.byte) : string := "".
Definition floor_scale (a b c : Z) : Z := (a / b * c)%Z.

(** * Properties *)

(** ** Ranking: the stable sort *)

Lemma elem_of_insert_by_precedence x y l :
  y ∈ insert_by_precedence x l <-> y = x \/ y ∈ l.
Proof.
  induction l as [|z l IH]; simpl.
  - rewrite list_elem_of_singleton, elem_of_nil. tauto.
  - destruct (Qle_bool _ _); rewrite !elem_of_cons; [tauto|].
    rewrite IH. tauto.
Qed.

Lemma elem_of_sorted y l : y ∈ sorted l <-> y ∈ l.
Proof.
  induction l as [|x l IH]; simpl; [done|].
  by rewrite elem_of_insert_by_precedence, IH, elem_of_cons.
Qed.

Lemma Qle_bool_false x y : Qle_bool x y = false -> (y < x)%Q.
Proof.
  intros E. apply Qnot_le_lt. intros H. apply Qle_bool_iff in H. congruence.
Qed.

Lemma insert_ascending x l : ascending l -> ascending (insert_by_precedence x l).
Proof.
  induction 1 as [|y l Hy Hl IH]; simpl.
  - constructor; constructor.
  - destruct (Qle_bool (prec x) (prec y)) eqn:E.
    + apply Qle_bool_iff in E. constructor; [|by constructor].
      constructor; [done|]. eapply Forall_impl; [exact Hy|].
      intros z Hz. simpl in Hz. by eapply Qle_trans.
    + constructor; [|done].
      apply Forall_forall. intros z Hz.
      apply elem_of_insert_by_precedence in Hz as [->|Hz].
      * by apply Qlt_le_weak, Qle_bool_false.
      * by eapply Forall_forall in Hy.
Qed.

Lemma sorted_ascending l : ascending (sorted l).
Proof. induction l; simpl; [constructor|by apply insert_ascending]. Qed.

(** Where an inserted class lands: everything after it ranks at least as
    high. *)
Lemma insert_split x l :
  ascending l ->
  exists X Y, insert_by_precedence x l = X ++ x :: Y /\ l = X ++ Y /\
    Forall (fun y => (prec x <= prec y)%Q) Y.
Proof.
  induction 1 as [|y l Hy Hl IH]; simpl.
  - exists [], []. by repeat split.
  - destruct (Qle_bool (prec x) (prec y)) eqn:E.
    + apply Qle_bool_iff in E. exists [], (y :: l). repeat split.
      constructor; [done|]. eapply Forall_impl; [exact Hy|].
      intros z Hz. simpl in Hz. by eapply Qle_trans.
    + destruct IH as (X & Y & -> & -> & HY).
      exists (y :: X), Y. by repeat split.
Qed.

(** Inserting an earlier class [x] moves it behind [T] only if it ranks
    strictly higher. *)
Lemma insert_past x X T Y :
  exists X' Y', insert_by_precedence x (X ++ T :: Y) = X' ++ T :: Y' /\
    (Y' = Y \/ ((prec T < prec x)%Q /\ forall z, z ∈ Y' -> z = x \/ z ∈ Y)).
Proof.
  induction X as [|y X IH]; simpl.
  - destruct (Qle_bool (prec x) (prec T)) eqn:E.
    + exists [x], Y. split; [done|by left].
    + exists [], (insert_by_precedence x Y). split; [done|right]. split.
      * by apply Qle_bool_false.
      * intros z Hz. by apply elem_of_insert_by_precedence in Hz.
  - destruct (Qle_bool (prec x) (prec y)).
    + exists (x :: y :: X), Y. split; [done|by left].
    + destruct IH as (X' & Y' & -> & H). exists (y :: X'), Y'. by split.
Qed.

(** In the ascending order, what stands behind [T] stood before it in
    the list with a strictly higher precedence, or after it with at least
    the same. *)
Lemma sorted_split A T B :
  exists X Y, sorted (A ++ T :: B) = X ++ T :: Y /\
    forall U, U ∈ Y ->
      (U ∈ A /\ (prec T < prec U)%Q) \/ (U ∈ B /\ (prec T <= prec U)%Q).
Proof.
  induction A as [|a A IH]; simpl.
  - destruct (insert_split T (sorted B) (sorted_ascending B)) as (X & Y & -> & HB & HY).
    exists X, Y. split; [done|]. intros U HU. right. split.
    + apply elem_of_sorted. rewrite HB. apply elem_of_app. by right.
    + by eapply Forall_forall in HY.
  - destruct IH as (X & Y & -> & HY).
    destruct (insert_past a X T Y) as (X' & Y' & -> & [-> | [Hlt HY']]).
    + exists X', Y. split; [done|]. intros U HU.
      destruct (HY U HU) as [[]|]; [left|by right].
      split; [by apply elem_of_cons; right|done].
    + exists X', Y'. split; [done|]. intros U HU.
      destruct (HY' U HU) as [-> | HU'].
      * left. split; [by apply elem_of_cons; left|done].
      * destruct (HY U HU') as [[]|]; [left|by right].
        split; [by apply elem_of_cons; right|done].
Qed.

(** ** The selection loop *)

Lemma first_applicable_skip e v L R :
  Forall (fun U => PaneType.applies U e v = Ok false) L ->
  PaneBase.first_applicable e v (L ++ R) = PaneBase.first_applicable e v R.
Proof.
  induction 1 as [|U L HU HL IH]; simpl; [done|]. by rewrite HU.
Qed.

Lemma first_applicable_none e v L :
  Forall (fun U => PaneType.applies U e v = Ok false) L ->
  PaneBase.first_applicable e v L =
    Raise (TypeError (type_name v +:+ " type could not be rendered.")).
Proof.
  intros H. rewrite <- (app_nil_r L). by rewrite first_applicable_skip.
Qed.

(** The loop ends in one of three ways. *)
Lemma first_applicable_cases e v L :
  (exists T, T ∈ L /\ PaneType.applies T e v = Ok true /\
             PaneBase.first_applicable e v L = Ok (PaneClass T)) \/
  (exists U x, U ∈ L /\ PaneType.applies U e v = Raise x /\
               PaneBase.first_applicable e v L = Raise x) \/
  (Forall (fun U => PaneType.applies U e v = Ok false) L).
Proof.
  induction L as [|U L IH]; simpl; [by right; right|].
  destruct (PaneType.applies U e v) as [[]|x] eqn:E.
  - left. exists U. split; [by apply elem_of_cons; left|done].
  - destruct IH as [(T & HT & Ha & Hr)|[(W & x & HW & Ha & Hr)|Hall]].
    + left. exists T. split; [by apply elem_of_cons; right|done].
    + right; left. exists W, x. split; [by apply elem_of_cons; right|done].
    + right; right. by constructor.
  - right; left. exists U, x. split; [by apply elem_of_cons; left|done].
Qed.

(** ** Resolution *)

(** C1, as amended.  On a value that is not a Viewable, [get_pane_type]
    selects the class [T] when [T] accepts the value, every class enumerated
    before [T] with a strictly higher precedence rejects it, and every
    class enumerated after [T] with the same or a higher precedence rejects
    it: among classes of equal precedence the one enumerated last wins. *)
Theorem get_pane_type_selects A T B e v :
  is_Viewable v = false ->
  PaneType.applies T e v = Ok true ->
  (forall U, U ∈ A -> (prec T < prec U)%Q -> PaneType.applies U e v = Ok false) ->
  (forall U, U ∈ B -> (prec T <= prec U)%Q -> PaneType.applies U e v = Ok false) ->
  PaneBase.get_pane_type (A ++ T :: B) e v = Ok (PaneClass T).
Proof.
  intros Hv HT HA HB. unfold PaneBase.get_pane_type. rewrite Hv.
  destruct (sorted_split A T B) as (X & Y & -> & HY).
  rewrite reverse_app, reverse_cons, <- app_assoc.
  rewrite first_applicable_skip.
  - simpl. by rewrite HT.
  - apply Forall_forall. intros U HU. apply elem_of_reverse, HY in HU.
    destruct HU as [[]|[]]; auto.
Qed.

Ltac each_class H :=
  repeat (apply elem_of_cons in H as [->|H]); [..|by apply elem_of_nil in H].

Ltac rejects_or_ranks_lower Hrank :=
  first [reflexivity | exfalso; vm_compute in Hrank; done].

Lemma get_pane_type_selects_witness :
  is_Viewable png_and_svg = false /\
  PaneType.applies SVG.cls bare_env png_and_svg = Ok true /\
  PaneBase.get_pane_type concrete_descendents bare_env png_and_svg
    = Ok (PaneClass SVG.cls).
Proof.
  split; [reflexivity|]. split; [reflexivity|].
  apply (get_pane_type_selects
           [Bokeh.cls; HoloViews.cls; Image.cls; HTML.cls; Str.cls;
            PNG.cls; GIF.cls; JPG.cls]
           SVG.cls
           [YT.cls; Matplotlib.cls; RGGPlot.cls]).
  - reflexivity.
  - reflexivity.
  - intros U HU Hrank. each_class HU; rejects_or_ranks_lower Hrank.
  - intros U HU Hrank. each_class HU; rejects_or_ranks_lower Hrank.
Defined.

(** C1 as stated fails on a tie: [PNG] accepts an object that has both
    [_repr_png_] and [_repr_svg_], no class of strictly higher precedence
    accepts it, and yet [SVG], of the same precedence, is selected. *)
Lemma get_pane_type_tie_counterexample :
  PNG.cls ∈ concrete_descendents /\
  PaneType.applies PNG.cls bare_env png_and_svg = Ok true /\
  (forall U, U ∈ concrete_descendents -> (prec PNG.cls < prec U)%Q ->
             PaneType.applies U bare_env png_and_svg <> Ok true) /\
  PaneBase.get_pane_type concrete_descendents bare_env png_and_svg
    <> Ok (PaneClass PNG.cls).
Proof.
  split; [|split; [reflexivity|split]].
  - unfold concrete_descendents. rewrite !elem_of_cons. tauto.
  - intros U HU Hrank. unfold concrete_descendents in HU.
    each_class HU; first [by vm_compute | exfalso; vm_compute in Hrank; done].
  - intros H.
    apply (f_equal (fun r => match r with
                             | Ok (PaneClass T) => PaneType.__name__ T
                             | _ => ""
                             end)) in H.
    vm_compute in H. discriminate H.
Qed.

(** The tie does not depend on the order of enumeration: in whatever
    order the declared classes come, [PNG] and [SVG] both meet the
    premises of C1 as stated on that object, and only one is selected. *)
Lemma tie_in_any_order reg :
  reg ≡ₚ concrete_descendents ->
  ~ (forall T, T ∈ reg ->
       PaneType.applies T bare_env png_and_svg = Ok true ->
       (forall U, U ∈ reg -> (prec T < prec U)%Q ->
                  PaneType.applies U bare_env png_and_svg <> Ok true) ->
       PaneBase.get_pane_type reg bare_env png_and_svg = Ok (PaneClass T)).
Proof.
  intros Hperm Hclaim.
  assert (Hno : forall T, (prec T == 0.5)%Q ->
            forall U, U ∈ reg -> (prec T < prec U)%Q ->
                      PaneType.applies U bare_env png_and_svg <> Ok true).
  { intros T HT U HU Hrank. rewrite HT in Hrank. rewrite Hperm in HU.
    unfold concrete_descendents in HU.
    each_class HU; first [by vm_compute | exfalso; vm_compute in Hrank; done]. }
  assert (Hin : forall T, T ∈ concrete_descendents -> T ∈ reg)
    by (intros T HT; by rewrite Hperm).
  assert (HPNG : PNG.cls ∈ concrete_descendents)
    by (unfold concrete_descendents; rewrite !elem_of_cons; tauto).
  assert (HSVG : SVG.cls ∈ concrete_descendents)
    by (unfold concrete_descendents; rewrite !elem_of_cons; tauto).
  pose proof (Hclaim PNG.cls (Hin _ HPNG) eq_refl (Hno PNG.cls ltac:(reflexivity))) as H1.
  pose proof (Hclaim SVG.cls (Hin _ HSVG) eq_refl (Hno SVG.cls ltac:(reflexivity))) as H2.
  rewrite H1 in H2.
  apply (f_equal (fun r => match r with
                           | Ok (PaneClass T) => PaneType.__name__ T
                           | _ => ""
                           end)) in H2.
  discriminate H2.
Qed.

(** C5, as amended.  [Str] accepts every value and no declared class has
    a lower precedence; so for a value that is not a Viewable, with [Str]
    among the enumerated classes, [get_pane_type] either selects a class
    that accepts the value or raises what an [applies] raised: the
    TypeError after the loop is not reached. *)
Theorem get_pane_type_never_falls_through reg e v :
  Str.cls ∈ reg ->
  is_Viewable v = false ->
  Str.applies e v = Ok true /\
  (forall T, T ∈ concrete_descendents -> (prec Str.cls <= prec T)%Q) /\
  ((exists T, T ∈ reg /\ PaneType.applies T e v = Ok true /\
              PaneBase.get_pane_type reg e v = Ok (PaneClass T)) \/
   (exists U x, U ∈ reg /\ PaneType.applies U e v = Raise x /\
                PaneBase.get_pane_type reg e v = Raise x)).
Proof.
  intros HStr Hv. split; [reflexivity|]. split.
  - intros T HT. unfold concrete_descendents in HT.
    each_class HT; by vm_compute.
  - unfold PaneBase.get_pane_type. rewrite Hv.
    destruct (first_applicable_cases e v (reverse (sorted reg)))
      as [(T & HT & Ha & Hr)|[(U & x & HU & Ha & Hr)|Hall]].
    + left. exists T. by rewrite elem_of_reverse, elem_of_sorted in HT.
    + right. exists U, x. by rewrite elem_of_reverse, elem_of_sorted in HU.
    + exfalso. eapply Forall_forall in Hall;
        [|by apply elem_of_reverse, elem_of_sorted, HStr].
      discriminate Hall.
Qed.

Lemma get_pane_type_never_falls_through_witness :
  Str.cls ∈ concrete_descendents /\
  is_Viewable int_3 = false /\
  exists T, PaneBase.get_pane_type concrete_descendents bare_env int_3
            = Ok (PaneClass T).
Proof.
  assert (HStr : Str.cls ∈ concrete_descendents)
    by (unfold concrete_descendents; rewrite !elem_of_cons; tauto).
  split; [exact HStr|]. split; [reflexivity|].
  destruct (get_pane_type_never_falls_through concrete_descendents bare_env int_3
              HStr eq_refl) as (_ & _ & [(T & _ & _ & HT)|(U & x & _ & _ & Hx)]).
  - by exists T.
  - vm_compute in Hx. discriminate Hx.
Defined.

(** C5 as stated fails on a matplotlib figure without a canvas: the loop
    selects no class, [Matplotlib.applies] raises before [Str] is
    reached. *)
Lemma get_pane_type_raises_counterexample :
  is_Viewable figure_without_canvas = false /\
  PaneBase.get_pane_type concrete_descendents plotting_env figure_without_canvas
    = Raise (ValueError "Matplotlib figure has no canvas and cannot be rendered.") /\
  (forall T, PaneBase.get_pane_type concrete_descendents plotting_env
               figure_without_canvas <> Ok T).
Proof.
  split; [reflexivity|]. split; [reflexivity|].
  intros T H. vm_compute in H. discriminate H.
Qed.

(** ** Construction *)

(** A class that rejects the value does not construct. *)
Lemma init_rejects T e v :
  PaneType.applies T e v = Ok false ->
  PaneBase.__init__ T e v
    = Raise (ValueError (type_name v +:+ " object not understood by "
                         +:+ PaneType.__name__ T +:+ ", expected "
                         +:+ drop_last 5 (PaneType.__name__ T) +:+ " object.")).
Proof. intros H. unfold PaneBase.__init__. by rewrite H. Qed.

(** An instance holds a value its class accepted. *)
Lemma init_accepts T e v p :
  PaneBase.__init__ T e v = Ok p ->
  PaneType.applies T e v = Ok true /\ pane_type p = T /\ object p = Some v.
Proof.
  unfold PaneBase.__init__. destruct (PaneType.applies T e v) as [[]|x]; simpl;
    intros H; inversion H; by subst.
Qed.

(** C9.  [HTML(3)] raises a ValueError that names the kind of the value
    and the class, and leaves the place of the expected kind empty:
    [name[:-5]] of ["HTML"] is the empty string. *)
Theorem init_message_drops_expected_kind :
  PaneBase.__init__ HTML.cls bare_env int_3
    = Raise (ValueError "int object not understood by HTML, expected  object.").
Proof. reflexivity. Qed.

(** ** Image headers *)

Lemma ord_range b : (0 <= ord b < 256)%Z.
Proof. unfold ord. pose proof (Byte.to_N_bounded b). lia. Qed.

Lemma ord_chr z : ord (chr z) = (z mod 256)%Z.
Proof.
  unfold chr, ord.
  destruct (Byte.of_N (Z.to_N (z mod 256))) as [b|] eqn:E.
  - apply Byte.to_of_N in E. rewrite E.
    pose proof (Z.mod_pos_bound z 256). lia.
  - apply Byte.of_N_None_iff in E.
    pose proof (Z.mod_pos_bound z 256). lia.
Qed.

Lemma unpack_pack_BE_LL w h :
  (0 <= w < 4294967296)%Z -> (0 <= h < 4294967296)%Z ->
  unpack_BE_LL (pack_BE_L w ++ pack_BE_L h) = Ok (w, h).
Proof.
  intros Hw Hh. unfold pack_BE_L. simpl. rewrite !ord_chr.
  f_equal. f_equal; Z.div_mod_to_equations; lia.
Qed.

Lemma unpack_pack_LE_HH w h :
  (0 <= w < 65536)%Z -> (0 <= h < 65536)%Z ->
  unpack_LE_HH (pack_LE_H w ++ pack_LE_H h) = Ok (w, h).
Proof.
  intros Hw Hh. unfold pack_LE_H. simpl. rewrite !ord_chr.
  f_equal. f_equal; Z.div_mod_to_equations; lia.
Qed.

Lemma unpack_pack_BE_HH h w :
  (0 <= w < 65536)%Z -> (0 <= h < 65536)%Z ->
  unpack_BE_HH (pack_BE_H h ++ pack_BE_H w) = Ok (h, w).
Proof.
  intros Hw Hh. unfold pack_BE_H. simpl. rewrite !ord_chr.
  f_equal. f_equal; Z.div_mod_to_equations; lia.
Qed.

Lemma unpack_pack_BE_H n :
  (0 <= n < 65536)%Z -> unpack_BE_H (pack_BE_H n) = Ok n.
Proof.
  intros Hn. unfold pack_BE_H. simpl. rewrite !ord_chr. f_equal. Z.div_mod_to_equations; lia.
Qed.

Lemma slice_field {A} (i j : nat) (prefix field rest : list A) :
  length prefix = i -> length field = (j - i)%nat ->
  slice i j (prefix ++ field ++ rest) = field.
Proof.
  intros Hp Hf. unfold slice. rewrite <- Hp, drop_app_length.
  rewrite Hp, <- Hf. apply take_app_length.
Qed.

Lemma PNG_imgshape_header prefix w h rest :
  length prefix = 16%nat ->
  (0 <= w < 4294967296)%Z -> (0 <= h < 4294967296)%Z ->
  PNG._imgshape (prefix ++ pack_BE_L w ++ pack_BE_L h ++ rest) = Ok (w, h).
Proof.
  intros Hp Hw Hh. unfold PNG._imgshape.
  rewrite (app_assoc (pack_BE_L w)), (slice_field 16 24) by done.
  by rewrite unpack_pack_BE_LL.
Qed.

Lemma GIF_imgshape_header prefix w h rest :
  length prefix = 6%nat ->
  (0 <= w < 65536)%Z -> (0 <= h < 65536)%Z ->
  GIF._imgshape (prefix ++ pack_LE_H w ++ pack_LE_H h ++ rest) = Ok (w, h).
Proof.
  intros Hp Hw Hh. unfold GIF._imgshape.
  rewrite (app_assoc (pack_LE_H w)), (slice_field 6 10) by done.
  by rewrite unpack_pack_LE_HH.
Qed.

(** *** The JPEG scan *)

Lemma until_FF_at_FF b : JPG.until_FF [Byte.xff] b = Ok ([Byte.xff], b).
Proof. destruct b; reflexivity. Qed.

Lemma ord_inj a b : ord a = ord b -> a = b.
Proof.
  unfold ord. intros H.
  assert (E : Byte.to_N a = Byte.to_N b) by lia.
  assert (Some a = Some b) by (rewrite <- !Byte.of_to_N; congruence).
  congruence.
Qed.

Lemma while_FF_stop m b :
  m <> Byte.xff -> JPG.while_FF [m] b = Ok ([m], b).
Proof.
  intros Hm.
  assert (E : (ord m =? 255)%Z = false).
  { apply Z.eqb_neq. intros H. apply Hm. by apply ord_inj. }
  destruct b; simpl; by rewrite E.
Qed.

Lemma while_FF_marker m b :
  m <> Byte.xff -> JPG.while_FF [Byte.xff] (m :: b) = Ok ([m], b).
Proof.
  intros Hm. rewrite <- (while_FF_stop m b Hm). reflexivity.
Qed.

Lemma is_SOF_not_FF m : is_SOF m = true -> m <> Byte.xff.
Proof. intros H ->. vm_compute in H. discriminate. Qed.

Lemma scan_frame_header fuel m l1 l2 p h w rest :
  is_SOF m = true ->
  (0 <= w < 65536)%Z -> (0 <= h < 65536)%Z ->
  JPG.scan (S fuel) [Byte.xff] ([m; l1; l2; p] ++ pack_BE_H h ++ pack_BE_H w ++ rest)
  = Ok (Some (w, h)).
Proof.
  intros Hm Hw Hh.
  cbn [JPG.scan]. cbn [ord1 mbind result_bind].
  change (ord Byte.xff =? 218)%Z with false. cbv iota.
  rewrite until_FF_at_FF. cbn [mbind result_bind].
  cbn ["++"]. rewrite while_FF_marker by by apply is_SOF_not_FF.
  cbn [mbind result_bind ord1]. fold (is_SOF m). rewrite Hm.
  unfold read. simpl. rewrite !ord_chr. 
  f_equal. f_equal. f_equal; Z.div_mod_to_equations; lia.
Qed.


Lemma scan_skip_segment fuel s tl :
  skipped s ->
  JPG.scan (S fuel) [Byte.xff]
    (marker s :: pack_BE_H (Z.of_nat (length (payload s)) + 2) ++ payload s
       ++ Byte.xff :: tl)
  = JPG.scan fuel [Byte.xff] tl.
Proof.
  intros (Hm & Hsof & Hlen).
  cbn [JPG.scan]. cbn [ord1 mbind result_bind].
  change (ord Byte.xff =? 218)%Z with false. cbv iota.
  rewrite until_FF_at_FF. cbn [mbind result_bind].
  rewrite while_FF_marker by done.
  cbn [mbind result_bind ord1]. fold (is_SOF (marker s)). rewrite Hsof.
  unfold read at 1. change (2 <? 0)%Z with false. cbv iota.
  change (Z.to_nat 2) with (length (pack_BE_H (Z.of_nat (length (payload s)) + 2))).
  rewrite take_app_length, drop_app_length.
  rewrite unpack_pack_BE_H by lia. cbn [mbind result_bind].
  unfold read at 1.
  replace (Z.of_nat (length (payload s)) + 2 - 2 <? 0)%Z with false by lia.
  replace (Z.to_nat (Z.of_nat (length (payload s)) + 2 - 2)) with (length (payload s)) by lia.
  rewrite drop_app_length.
  reflexivity.
Qed.

Lemma scan_header_stream segs : forall fuel m l1 l2 p h w rest,
  (length segs < fuel)%nat ->
  Forall skipped segs ->
  is_SOF m = true ->
  (0 <= w < 65536)%Z -> (0 <= h < 65536)%Z ->
  JPG.scan fuel [Byte.xff]
    (drop 1 (header_stream segs (frame_header m l1 l2 p h w ++ rest)))
  = Ok (Some (w, h)).
Proof.
  induction segs as [|s segs IH]; intros fuel m l1 l2 p h w rest Hfuel Hsegs Hm Hw Hh.
  - destruct fuel as [|fuel]; [simpl in Hfuel; lia|].
    apply (scan_frame_header fuel m l1 l2 p h w rest Hm Hw Hh).
  - destruct fuel as [|fuel]; [simpl in Hfuel; lia|].
    inversion Hsegs as [|? ? Hs Hsegs']; subst.
    specialize (IH fuel m l1 l2 p h w rest ltac:(simpl in Hfuel; lia) Hsegs' Hm Hw Hh).
    rewrite <- IH.
    assert (Hff : header_stream segs (frame_header m l1 l2 p h w ++ rest)
                  = Byte.xff :: drop 1 (header_stream segs (frame_header m l1 l2 p h w ++ rest))).
    { unfold header_stream. destruct segs; reflexivity. }
    rewrite <- (scan_skip_segment fuel s _ Hs).
    rewrite <- Hff.
    unfold header_stream at 1. rewrite fmap_cons. cbn [concat].
    unfold segment_bytes at 1. cbn [app drop].
    by rewrite <- !app_assoc.
Qed.

Lemma length_header_stream segs fh :
  (length segs + length fh <= length (header_stream segs fh))%nat.
Proof.
  unfold header_stream. rewrite length_app.
  induction segs as [|s segs IH]; [simpl; lia|].
  rewrite fmap_cons. cbn [concat]. rewrite length_app.
  unfold segment_bytes at 1. simpl. lia.
Qed.

Lemma JPG_imgshape_header soi segs m l1 l2 p h w rest :
  length soi = 2%nat ->
  Forall skipped segs ->
  is_SOF m = true ->
  (0 <= w < 65536)%Z -> (0 <= h < 65536)%Z ->
  JPG._imgshape (soi ++ header_stream segs (frame_header m l1 l2 p h w ++ rest))
  = Ok (w, h).
Proof.
  intros Hsoi Hsegs Hm Hw Hh. unfold JPG._imgshape.
  unfold read at 1. change (2 <? 0)%Z with false. cbv iota.
  change (Z.to_nat 2) with 2%nat. rewrite <- Hsoi, drop_app_length.
  set (data := header_stream segs (frame_header m l1 l2 p h w ++ rest)).
  assert (Hff : data = Byte.xff :: drop 1 data).
  { unfold data, header_stream. destruct segs; reflexivity. }
  rewrite Hff. unfold read. change (1 <? 0)%Z with false. cbv iota.
  change (Z.to_nat 1) with 1%nat. cbn [take drop].
  rewrite drop_0.
  unfold data. rewrite scan_header_stream; try done.
  fold data.
  pose proof (length_header_stream segs (frame_header m l1 l2 p h w ++ rest)) as HL.
  fold data in HL.
  assert (HS : length data = S (length (drop 1 data))) by (by rewrite Hff at 1).
  rewrite length_app in HL. change (length (frame_header m l1 l2 p h w)) with 9%nat in HL.
  lia.
Qed.

Lemma until_FF_length b : forall c c' b',
  JPG.until_FF c b = Ok (c', b') ->
  (length b' <= length b)%nat /\ ord1 c' = Ok 255%Z.
Proof.
  induction b as [|x b IH]; intros c c' b'; simpl.
  - destruct (ord1 c) as [o|] eqn:E; simpl; [|done].
    destruct (o =? 255)%Z eqn:E'; [|done].
    intros [= <- <-]. apply Z.eqb_eq in E'. by subst.
  - destruct (ord1 c) as [o|] eqn:E; simpl; [|done].
    destruct (o =? 255)%Z eqn:E'.
    + intros [= <- <-]. apply Z.eqb_eq in E'. subst. simpl. split; [lia|done].
    + intros H. apply IH in H as [? ?]. split; [lia|done].
Qed.

Lemma while_FF_length b : forall c c' b',
  JPG.while_FF c b = Ok (c', b') ->
  ord1 c = Ok 255%Z ->
  (length b' < length b)%nat.
Proof.
  induction b as [|x b IH]; intros c c' b'; simpl.
  - intros H Hc. rewrite Hc in H. simpl in H. discriminate H.
  - intros H Hc. rewrite Hc in H. simpl in H.
    destruct (ord x =? 255)%Z eqn:E.
    + apply Z.eqb_eq in E. apply IH in H; [lia|]. simpl. by rewrite E.
    + destruct b; simpl in H; rewrite E in H; injection H as <- <-; simpl; lia.
Qed.

Lemma length_read_rest size b : (length (read size b).2 <= length b)%nat.
Proof.
  unfold read. destruct (size <? 0)%Z; simpl; [lia|]. rewrite length_drop. lia.
Qed.

Lemma ord1_raises c e : ord1 c = Raise e -> exists msg, e = TypeError msg.
Proof. destruct c as [|? [|]]; simpl; intros [= <-]; eauto. Qed.

Lemma until_FF_raises b : forall c e,
  JPG.until_FF c b = Raise e -> exists msg, e = TypeError msg.
Proof.
  induction b as [|y b IH]; intros c e; simpl;
    destruct (ord1 c) as [o|] eqn:E; simpl;
    try (intros [= <-]; by eapply ord1_raises);
    destruct (o =? 255)%Z; try done.
  - intros [= <-]; eauto.
  - apply IH.
Qed.

Lemma while_FF_raises b : forall c e,
  JPG.while_FF c b = Raise e -> exists msg, e = TypeError msg.
Proof.
  induction b as [|y b IH]; intros c e; simpl;
    destruct (ord1 c) as [o|] eqn:E; simpl;
    try (intros [= <-]; by eapply ord1_raises);
    destruct (o =? 255)%Z; try done.
  - intros [= <-]; eauto.
  - apply IH.
Qed.

Lemma unpack_BE_HH_raises buf e :
  unpack_BE_HH buf = Raise e -> exists msg, e = struct_error msg.
Proof.
  unfold unpack_BE_HH.
  repeat (destruct buf as [|? buf]; try (intros [= <-]; eauto)).
Qed.

Lemma unpack_BE_H_raises buf e :
  unpack_BE_H buf = Raise e -> exists msg, e = struct_error msg.
Proof.
  unfold unpack_BE_H.
  repeat (destruct buf as [|? buf]; try (intros [= <-]; eauto)).
Qed.

(** The fuel of [_imgshape] is never used up. *)
Lemma scan_fuel_suffices fuel : forall c b,
  (length b < fuel)%nat -> JPG.scan fuel c b <> Raise (Exception "unreachable").
Proof.
  induction fuel as [|fuel IH]; intros c b Hfuel; [lia|].
  cbn [JPG.scan]. destruct c as [|x c]; [done|].
  destruct (ord1 (x :: c)) as [o|e] eqn:Eo; cbn [mbind result_bind].
  2:{ apply ord1_raises in Eo as [? ->]. done. }
  destruct (o =? 218)%Z; [done|].
  destruct (JPG.until_FF (x :: c) b) as [[c1 b1]|e] eqn:E1; cbn [mbind result_bind].
  2:{ apply until_FF_raises in E1 as [? ->]. done. }
  apply until_FF_length in E1 as [Hl1 Hc1].
  destruct (JPG.while_FF c1 b1) as [[c2 b2]|e] eqn:E2; cbn [mbind result_bind].
  2:{ apply while_FF_raises in E2 as [? ->]. done. }
  apply while_FF_length in E2; [|done].
  destruct (ord1 c2) as [o2|e] eqn:Eo2; cbn [mbind result_bind].
  2:{ apply ord1_raises in Eo2 as [? ->]. done. }
  destruct ((192 <=? o2)%Z && (o2 <=? 195)%Z).
  - destruct (read 3 b2) as [? b3]. destruct (read 4 b3) as [buf b4].
    destruct (unpack_BE_HH buf) as [[h w]|e] eqn:Eu; cbn [mbind result_bind]; [done|].
    apply unpack_BE_HH_raises in Eu as [? ->]. done.
  - pose proof (length_read_rest 2 b2) as L2.
    destruct (read 2 b2) as [buf b3]. simpl in L2.
    destruct (unpack_BE_H buf) as [n|e] eqn:Eu; cbn [mbind result_bind].
    2:{ apply unpack_BE_H_raises in Eu as [? ->]. done. }
    pose proof (length_read_rest (n - 2) b3) as L3.
    destruct (read (n - 2) b3) as [? b4]. simpl in L3.
    pose proof (length_read_rest 1 b4) as L4.
    destruct (read 1 b4) as [c5 b5]. simpl in L4.
    apply IH. lia.
Qed.

(** C10, as amended.  [_imgshape] returns the width and height written in
    the header: for PNG the two big-endian 4-byte fields at offsets 16 to
    24, for GIF the two little-endian 2-byte fields at offset 6, for JPEG
    the height and width of the first segment whose marker is in
    0xC0..0xC3 (SOF0 to SOF3), reached by stepping over the marker
    segments before it, those of the other SOF markers among them.  The
    fixture of width 100 and height 50 gives (100, 50). *)
Theorem imgshape_reads_header
    (png_prefix png_rest gif_prefix gif_rest soi jpg_rest : list Byte.byte)
    (segs : list segment) (m l1 l2 p : Byte.byte) (W H w h : Z) :
  length png_prefix = 16%nat ->
  length gif_prefix = 6%nat ->
  length soi = 2%nat ->
  Forall skipped segs ->
  is_SOF m = true ->
  (0 <= W < 4294967296)%Z -> (0 <= H < 4294967296)%Z ->
  (0 <= w < 65536)%Z -> (0 <= h < 65536)%Z ->
  PNG._imgshape (png_prefix ++ pack_BE_L W ++ pack_BE_L H ++ png_rest) = Ok (W, H) /\
  PNG._imgshape png_100x50 = Ok (100, 50)%Z /\
  GIF._imgshape (gif_prefix ++ pack_LE_H w ++ pack_LE_H h ++ gif_rest) = Ok (w, h) /\
  JPG._imgshape (soi ++ header_stream segs (frame_header m l1 l2 p h w ++ jpg_rest))
    = Ok (w, h).
Proof.
  intros. split; [by apply PNG_imgshape_header|]. split; [reflexivity|].
  split; [by apply GIF_imgshape_header|by apply JPG_imgshape_header].
Qed.

Lemma skipped_jfif_APP0 : skipped jfif_APP0.
Proof. split; [discriminate|split; [reflexivity|by vm_compute]]. Qed.

Lemma skipped_short_DQT : skipped short_DQT.
Proof. split; [discriminate|split; [reflexivity|by vm_compute]]. Qed.

Lemma imgshape_reads_header_witness :
  PNG._imgshape png_100x50 = Ok (100, 50)%Z /\
  GIF._imgshape gif_100x50 = Ok (100, 50)%Z /\
  JPG._imgshape jpg_100x50 = Ok (100, 50)%Z.
Proof.
  destruct (imgshape_reads_header
              (take 16 png_100x50) (drop 24 png_100x50)
              (take 6 gif_100x50) (drop 10 gif_100x50)
              [Byte.xff; Byte.xd8] [Byte.x03; Byte.x01; Byte.x22; Byte.x00]
              [jfif_APP0; short_DQT]
              Byte.xc0 Byte.x00 Byte.x11 Byte.x08 100 50 100 50)
    as (Hpng & _ & Hgif & Hjpg);
    try reflexivity; try (split; [done|reflexivity]).
  - repeat constructor; [apply skipped_jfif_APP0|apply skipped_short_DQT].
  - split; [exact Hpng|]. split; [exact Hgif|exact Hjpg].
Defined.

(** C10 as stated fails on a frame header that is not one of SOF0 to
    SOF3: the first SOF segment of the arithmetic-coded JPEG is its SOF9
    segment, which holds height 50 and width 100; the scan steps over it
    as over any other segment, then over the scan header, and fails on
    the length it looks for after EOI. *)
Lemma imgshape_SOF9_counterexample :
  segment_bytes SOF9_100x50
    = frame_header Byte.xc9 Byte.x00 Byte.x11 Byte.x08 50 100
      ++ [Byte.x03; Byte.x01; Byte.x22; Byte.x00; Byte.x02; Byte.x11; Byte.x01;
          Byte.x03; Byte.x11; Byte.x01] /\
  is_SOF (marker SOF9_100x50) = false /\
  JPG._imgshape jpg_SOF9_100x50
    = Raise (struct_error "unpack requires a buffer of 2 bytes") /\
  JPG._imgshape jpg_SOF9_100x50 <> Ok (100, 50)%Z.
Proof.
  split; [reflexivity|]. split; [reflexivity|].
  assert (H : JPG._imgshape jpg_SOF9_100x50
              = Raise (struct_error "unpack requires a buffer of 2 bytes"))
    by (vm_compute; reflexivity).
  split; [exact H|]. rewrite H. discriminate.
Qed.

(** ** Widget synthesis *)

(** One turn of the loop on a dimension that has a range and no candidate
    values, without an override. *)
Lemma for_dim_range widget_types values d lo hi widgets widget :
  widget_types !! Dimension.name d = None ->
  Dimension.values d = [] ->
  default [] (dict_get Dimension.eqb d values) = [] ->
  Dimension.range d = (Some lo, Some hi) ->
  let slider :=
    AWidget (RangeWidget FloatSlider
               (match Dimension.step d with None => 0.1%Q | Some s => s end)
               (Dimension.label d) (Some lo) (Some hi)
               (match Dimension.default d with
                | None => Some (PyNum lo)
                | Some v => Some v
                end)) in
  HoloViews.for_dim widget_types values d widgets widget
    = Ok (widgets ++ [slider], Some slider).
Proof.
  intros Hov Hvals Hkeys Hrange. unfold HoloViews.for_dim.
  rewrite Hov, Hvals, Hkeys. unfold HoloViews.build. rewrite Hrange.
  by destruct (Dimension.step d), (Dimension.default d).
Qed.

(** C7.  For the dimensions [color] (values red, green, blue) and [level]
    (range 0 to 10, step 2, default 4), without keys and overrides, the
    synthesis returns a Select over the three values with value red and
    then a FloatSlider from 0 to 10 with step 2 and value 4.  For any
    dimension with a range and no candidate values the slider takes step
    0.1 when none is declared and the lower bound as value when no
    default is declared. *)
Theorem widgets_from_dimensions_example d lo hi :
  Dimension.values d = [] ->
  Dimension.range d = (Some lo, Some hi) ->
  HoloViews.widgets_from_dimensions [color; level] [] ∅
    = Ok [color_select; level_slider] /\
  HoloViews.widgets_from_dimensions [d] [] ∅
    = Ok [AWidget (RangeWidget FloatSlider
                     (match Dimension.step d with None => 0.1%Q | Some s => s end)
                     (Dimension.label d) (Some lo) (Some hi)
                     (match Dimension.default d with
                      | None => Some (PyNum lo)
                      | Some v => Some v
                      end))].
Proof.
  intros Hvals Hrange. split; [reflexivity|].
  unfold HoloViews.widgets_from_dimensions. simpl.
  by rewrite for_dim_range with (lo := lo) (hi := hi).
Qed.

Lemma widgets_from_dimensions_example_witness :
  HoloViews.widgets_from_dimensions [depth] [] ∅
    = Ok [AWidget (RangeWidget FloatSlider 0.1%Q "depth" (Some 0%Q) (Some 10%Q)
                     (Some (PyNum 0)))].
Proof.
  exact (proj2 (widgets_from_dimensions_example depth 0%Q 10%Q eq_refl eq_refl)).
Defined.

(** C8.  A dimension with no values, no keys and no range still reaches
    [widgets.append(widget)]: after [level] the slider of [level] is
    appended a second time, and as the first dimension the variable
    [widget] is unbound. *)
Theorem widgets_from_dimensions_unconstrained :
  HoloViews.widgets_from_dimensions [level; free] [] ∅
    = Ok [level_slider; level_slider] /\
  HoloViews.widgets_from_dimensions [free] [] ∅
    = Raise (UnboundLocalError "local variable 'widget' referenced before assignment").
Proof. split; reflexivity. Qed.

(** ** The reactive binding *)

Lemma emit_nil w : emit [] w = w.
Proof. destruct w. unfold emit. simpl. by rewrite app_nil_r. Qed.

Lemma emit_emit a b w : emit b (emit a w) = emit (a ++ b) w.
Proof. unfold emit. simpl. by rewrite app_assoc. Qed.

Section Returning.
Variable c : collaborators.
Hypothesis returns : forall tr ev, answer c tr ev = None.

Lemma call_returns ev w : call c ev w = (Ok tt, emit [ev] w).
Proof. unfold call. by rewrite returns. Qed.

Lemma for_each_emits {A} (f : A -> M unit) (evs : A -> list event) l :
  (forall x w, f x w = (Ok tt, emit (evs x) w)) ->
  forall w, for_each f l w = (Ok tt, emit (x ← l; evs x) w).
Proof.
  intros Hf. induction l as [|x l IH]; intros w; simpl.
  - by rewrite emit_nil.
  - unfold mbind at 1, M_bind. rewrite Hf, IH. by rewrite emit_emit.
Qed.

Lemma PaneBase_cleanup_returns model final w :
  PaneBase._cleanup c model final w
  = (Ok tt, if final
            then (set_self_object None (emit [Reactive__cleanup model final] w)).2
            else emit [Reactive__cleanup model final] w).
Proof.
  unfold PaneBase._cleanup. unfold mbind, M_bind. rewrite call_returns.
  by destruct final.
Qed.

Lemma HoloViews_cleanup_returns model w o :
  object (self w) = Some o ->
  HoloViews._cleanup c model false w
  = (Ok tt, emit (stream_cleanups o model ++ [Reactive__cleanup model false]) w).
Proof.
  intros Ho. unfold HoloViews._cleanup. unfold mbind at 1, M_bind at 1.
  unfold get_self_object. rewrite Ho.
  unfold mbind at 1, M_bind at 1.
  rewrite (for_each_emits _ (fun dmap => stream ← dmap; sub ← stream;
             if ismethod sub && bool_decide (owner_state sub = model)
             then [owner_cleanup (owner sub)] else [])).
  - rewrite PaneBase_cleanup_returns. by rewrite emit_emit.
  - intros dmap w'.
    apply (for_each_emits _ (fun stream => sub ← stream;
             if ismethod sub && bool_decide (owner_state sub = model)
             then [owner_cleanup (owner sub)] else [])).
    intros stream w''.
    apply (for_each_emits _ (fun sub =>
             if ismethod sub && bool_decide (owner_state sub = model)
             then [owner_cleanup (owner sub)] else [])).
    intros sub w3. destruct (ismethod sub); simpl; [|by rewrite emit_nil].
    destruct (bool_decide _); [apply call_returns|by rewrite emit_nil].
Qed.
End Returning.

Lemma self__cleanup_returns c T v model w :
  (forall tr ev, answer c tr ev = None) ->
  object (self w) = Some v ->
  self__cleanup c {| pane_type := T; object := Some v |} model false w
  = (Ok tt, emit (cleanup_calls T v model false) w).
Proof.
  intros Hc Ho. unfold self__cleanup, cleanup_calls. simpl.
  destruct (PaneType._cleanup T).
  - by rewrite PaneBase_cleanup_returns.
  - by rewrite (HoloViews_cleanup_returns c Hc model w v Ho).
Qed.

(** C2.  After the binding is attached ([history = [old]]), assigning a
    new object with collaborators that return leads, at once with a comm
    and after the next tick without one, to this state.  A class with
    [_updates] keeps the model: [history] and [parent.children] are
    unchanged and the only call is [_update(old)] (then [push]).  A class
    without it makes the calls of one [_cleanup(old)], which has exactly
    one [Reactive._cleanup(old, final=False)], then [_get_model], puts the
    new model at the index [old] had in [parent.children], and records it
    in [history]. *)
Theorem set_object_updates_or_replaces c comm w v old rest i new :
  (forall tr ev, answer c tr ev = None) ->
  history w = old :: rest ->
  next_tick w = [] ->
  list_index old (children w) = Some i ->
  _get_model c (trace w ++ cleanup_calls (pane_type (self w)) v (Some old) false)
    = Ok new ->
  exists w',
    apply_change c comm (Some v) w = (Ok tt, [], w') /\
    object (self w') = Some v /\ next_tick w' = [] /\
    if PaneType._updates (pane_type (self w)) then
      history w' = old :: rest /\ children w' = children w /\
      trace w' = trace w ++ [call__update old] ++ (if comm then [call_push] else [])
    else
      history w' = new :: rest /\ children w' = <[i := new]> (children w) /\
      trace w' = trace w ++ cleanup_calls (pane_type (self w)) v (Some old) false
                   ++ [call__get_model] ++ (if comm then [call_push] else []).
Proof.
  intros Hc Hh Hq Hi Hnew.
  destruct w as [[T o] ch hi nt tr]. simpl in *. subst hi nt.
  unfold apply_change, set_object, update_pane, PaneBase.update_pane.
  unfold mbind, M_bind, set_self_object, get_self, get_history. simpl.
  destruct (PaneType._updates T) eqn:Hu.
  - unfold mret, M_ret. destruct comm.
    + unfold PaneBase.run_update_models. rewrite !call_returns by done.
      eexists. split; [reflexivity|]. simpl. by rewrite <- ?app_assoc.
    + unfold add_next_tick_callback, PaneBase.tick. simpl.
      unfold PaneBase.run_update_models. rewrite call_returns by done.
      eexists. split; [reflexivity|]. simpl. by rewrite ?app_nil_r.
  - rewrite self__cleanup_returns by done.
    unfold call_get_model, log. simpl. rewrite Hnew.
    unfold mret, M_ret. destruct comm.
    + unfold PaneBase.run_update_models.
      unfold mbind, M_bind, get_children, set_children, get_history, set_history. simpl.
      rewrite Hi. rewrite call_returns by done.
      eexists. split; [reflexivity|]. simpl. by rewrite <- ?app_assoc.
    + unfold add_next_tick_callback, PaneBase.tick. simpl.
      unfold PaneBase.run_update_models.
      unfold mbind, M_bind, get_children, set_children, get_history, set_history. simpl.
      rewrite Hi.
      eexists. split; [reflexivity|]. simpl. by rewrite <- ?app_assoc, ?app_nil_r.
Qed.

(** *** What the calls below leave alone *)

Lemma framed_refl w : framed w w.
Proof. by repeat split. Qed.

Lemma framed_trans w1 w2 w3 : framed w1 w2 -> framed w2 w3 -> framed w1 w3.
Proof. unfold framed. intros (?&?&?&?&?) (?&?&?&?&?). repeat split; congruence. Qed.

Lemma pushes_app a b : pushes (a ++ b) = (pushes a + pushes b)%nat.
Proof.
  induction a as [|ev a IH]; simpl; [done|]. destruct ev; simpl; by rewrite ?IH.
Qed.

Lemma call_framed c ev w :
  ev <> call_push -> framed w (call c ev w).2.
Proof.
  intros Hev. unfold call, framed.
  assert (pushes (trace w ++ [ev]) = pushes (trace w)).
  { rewrite pushes_app. destruct ev; simpl; try lia. done. }
  by destruct (answer c (trace w) ev).
Qed.

Lemma bind_framed {A B} (m : M A) (k : A -> M B) w :
  framed w (m w).2 -> (forall a w', framed w' (k a w').2) ->
  framed w ((m ≫= k) w).2.
Proof.
  intros Hm Hk. unfold mbind, M_bind. destruct (m w) as [[a|e] w']; simpl in *.
  - eapply framed_trans; [exact Hm|apply Hk].
  - done.
Qed.

Lemma for_each_framed {A} (f : A -> M unit) l :
  (forall x w, framed w (f x w).2) -> forall w, framed w (for_each f l w).2.
Proof.
  intros Hf. induction l as [|x l IH]; intros w; simpl; [apply framed_refl|].
  apply bind_framed; [apply Hf|]. intros _ w'. apply IH.
Qed.

Lemma set_self_object_framed o w : framed w (set_self_object o w).2.
Proof. by repeat split. Qed.

Lemma PaneBase_cleanup_framed c model final w :
  framed w (PaneBase._cleanup c model final w).2.
Proof.
  unfold PaneBase._cleanup. apply bind_framed; [by apply call_framed|].
  intros _ w'. destruct final; [apply set_self_object_framed|apply framed_refl].
Qed.

Lemma HoloViews_cleanup_framed c model final w :
  framed w (HoloViews._cleanup c model final w).2.
Proof.
  unfold HoloViews._cleanup. apply bind_framed; [apply framed_refl|].
  intros [o|] w'; [|apply framed_refl].
  apply bind_framed; [|intros; apply PaneBase_cleanup_framed].
  apply for_each_framed. intros dmap w1.
  apply for_each_framed. intros stream w2.
  apply for_each_framed. intros sub w3.
  destruct (ismethod sub); [|apply framed_refl].
  destruct (bool_decide _); [by apply call_framed|apply framed_refl].
Qed.

Lemma self__cleanup_framed c s model final w :
  framed w (self__cleanup c s model final w).2.
Proof.
  unfold self__cleanup. destruct (PaneType._cleanup (pane_type s));
    [apply PaneBase_cleanup_framed|apply HoloViews_cleanup_framed].
Qed.

(** C3, as amended.  When computing the update raises [e]: on the replace
    path ([_cleanup] or [_get_model] raises), and on the in-place path with
    a comm ([_update] raises), the assignment raises [e], and
    [parent.children], [history], the tick queue and the number of pushes
    are as before.  On the in-place path without a comm the assignment
    returns; [_update] runs on the document's next tick and [e] is raised
    there, with [parent.children] and [history] as before. *)
Theorem update_error_surfaces c comm w v old rest e :
  history w = old :: rest ->
  next_tick w = [] ->
  update_raises c (set_self_object v w).2 old = Some e ->
  if PaneType._updates (pane_type (self w)) && negb comm then
    exists w' w'',
      set_object c comm v w = (Ok tt, w') /\
      children w' = children w /\ history w' = history w /\
      next_tick w' = [update_in_place old] /\
      PaneBase.tick c w' = ([e], w'') /\
      children w'' = children w /\ history w'' = history w
  else
    exists w',
      set_object c comm v w = (Raise e, w') /\ framed w w'.
Proof.
  intros Hh Hq. unfold update_raises.
  destruct w as [[T o] ch hi nt tr]. simpl in *. subst hi nt.
  unfold set_object, update_pane, PaneBase.update_pane.
  unfold mbind, M_bind, set_self_object, get_self, get_history. simpl.
  destruct (PaneType._updates T) eqn:Hu; simpl.
  - intros He. unfold mret, M_ret. destruct comm; simpl.
    + unfold PaneBase.run_update_models, call. simpl. rewrite He.
      eexists. split; [reflexivity|]. repeat split. simpl.
      rewrite pushes_app. simpl. lia.
    + unfold add_next_tick_callback.
      eexists _, _. split; [reflexivity|]. simpl.
      do 3 (split; [reflexivity|]).
      unfold PaneBase.tick. simpl. unfold call. simpl. rewrite He.
      split; [reflexivity|]. done.
  - set (w0 := {| self := _ |}).
    pose proof (self__cleanup_framed c {| pane_type := T; object := v |} (Some old) false w0) as HF.
    destruct (self__cleanup c _ (Some old) false w0) as [[[]|e'] w1]; simpl in HF.
    + unfold call_get_model, log. simpl.
      destruct (_get_model c (trace w1)) as [new|e'] eqn:Hg; [done|].
      intros [= ->]. eexists. split; [reflexivity|].
      destruct HF as (?&?&?&HP&?). subst w0. simpl in *.
      repeat split; simpl; try done.
      rewrite pushes_app, HP. simpl. lia.
    + intros [= ->]. eexists. split; [reflexivity|]. exact HF.
Qed.

Lemma set_object_updates_or_replaces_witness :
  exists w',
    apply_change quiet false (Some a_Curve) (displayed HoloViews.cls a_Curve)
      = (Ok tt, [], w') /\
    history w' = [8%nat] /\ children w' = [6; 8; 9]%nat /\
    trace w' = [Reactive__cleanup (Some 7%nat) false; call__get_model].
Proof.
  destruct (set_object_updates_or_replaces quiet false
              (displayed HoloViews.cls a_Curve) a_Curve 7%nat [] 1%nat 8%nat)
    as (w' & Hrun & _ & _ & Hh & Hc & Ht); try reflexivity.
  exists w'. split; [exact Hrun|]. split; [exact Hh|]. split; [exact Hc|exact Ht].
Defined.

Lemma update_error_surfaces_witness :
  exists w',
    set_object failing_get_model false (Some a_Curve) (displayed HoloViews.cls a_Curve)
      = (Raise (Exception "backend not initialized"), w') /\
    children w' = [6; 7; 9]%nat /\ history w' = [7%nat].
Proof.
  destruct (update_error_surfaces failing_get_model false
              (displayed HoloViews.cls a_Curve) (Some a_Curve) 7%nat []
              (Exception "backend not initialized"))
    as (w' & Hrun & Hc & Hh & _); try reflexivity.
  exists w'. split; [exact Hrun|]. split; [exact Hc|exact Hh].
Defined.

(** C3 as stated fails for an in-place pane without a comm: [_update]
    raises, the assignment returns normally, and the error comes up on
    the next tick. *)
Lemma deferred_update_error_counterexample :
  PaneType._updates PNG.cls = true /\
  update_raises failing_update
    (set_self_object (Some a_picture) (displayed PNG.cls a_picture)).2 7%nat
    = Some (struct_error "unpack requires a buffer of 8 bytes") /\
  (set_object failing_update false (Some a_picture) (displayed PNG.cls a_picture)).1
    = Ok tt /\
  (PaneBase.tick failing_update
     (set_object failing_update false (Some a_picture) (displayed PNG.cls a_picture)).2).1
    = [struct_error "unpack requires a buffer of 8 bytes"].
Proof. repeat split. Qed.

(** ** Final cleanup *)

Lemma HoloViews_cleanup_without_object c model final w :
  object (self w) = None ->
  HoloViews._cleanup c model final w
  = (Raise (AttributeError "'NoneType' object has no attribute 'traverse'"), w).
Proof.
  intros Ho. unfold HoloViews._cleanup, mbind, M_bind, get_self_object.
  by rewrite Ho.
Qed.

Lemma PaneBase_cleanup_clears c model w w' :
  PaneBase._cleanup c model true w = (Ok tt, w') -> object (self w') = None.
Proof.
  unfold PaneBase._cleanup, mbind, M_bind.
  destruct (call c _ w) as [[[]|e] w1]; [|done]. by intros [= <-].
Qed.

Lemma for_each_self {A} (f : A -> M unit) l :
  (forall x w, self (f x w).2 = self w) -> forall w, self (for_each f l w).2 = self w.
Proof.
  intros Hf. induction l as [|x l IH]; intros w; simpl; [done|].
  unfold mbind, M_bind. specialize (Hf x w).
  destruct (f x w) as [[[]|e] w1]; simpl in *; [|done]. by rewrite IH.
Qed.

Lemma HoloViews_cleanup_clears c model w w' :
  HoloViews._cleanup c model true w = (Ok tt, w') -> object (self w') = None.
Proof.
  unfold HoloViews._cleanup. unfold mbind at 1, M_bind at 1, get_self_object.
  destruct (object (self w)) as [o|]; [|done].
  unfold mbind at 1, M_bind at 1.
  destruct (for_each _ _ w) as [[[]|e] w1]; [|done].
  apply PaneBase_cleanup_clears.
Qed.

(** Every final cleanup of a HoloViews pane on the watched model that
    returns is followed by one that raises. *)
Lemma HoloViews_cleanup_twice_raises c m w w' :
  head (history w) = Some m ->
  PaneType._cleanup (pane_type (self w)) = HoloViews__cleanup ->
  cleanup c (Some m) true w = (Ok tt, w') ->
  (cleanup c (Some m) true w').1
  = Raise (AttributeError "'NoneType' object has no attribute 'traverse'").
Proof.
  unfold cleanup, mbind, M_bind, get_self, self__cleanup. intros _ HT. rewrite HT.
  intros H1. pose proof (HoloViews_cleanup_clears _ _ _ _ H1) as Hnone.
  pose proof (HoloViews_cleanup_framed c (Some m) true w) as (_&_&_&_&HT').
  rewrite H1 in HT'. simpl in HT'. rewrite HT', HT.
  by rewrite HoloViews_cleanup_without_object.
Qed.

(** On the classes that keep [PaneBase._cleanup], two final cleanups on
    the watched model return when the calls below do, and the first
    clears the object. *)
Lemma PaneBase_cleanup_twice_returns c m w :
  head (history w) = Some m ->
  (forall tr ev, answer c tr ev = None) ->
  PaneType._cleanup (pane_type (self w)) = PaneBase__cleanup ->
  exists w1 w2,
    cleanup c (Some m) true w = (Ok tt, w1) /\ object (self w1) = None /\
    cleanup c (Some m) true w1 = (Ok tt, w2) /\ object (self w2) = None.
Proof.
  intros _ Hc HT. unfold cleanup, mbind, M_bind, get_self, self__cleanup.
  rewrite HT. rewrite PaneBase_cleanup_returns by done.
  eexists _, _. split; [reflexivity|]. split; [reflexivity|].
  simpl. rewrite HT. rewrite PaneBase_cleanup_returns by done.
  split; reflexivity.
Qed.

(** C6.  On a HoloViews pane the first final cleanup returns and clears
    [self.object]; the second raises AttributeError, because
    [HoloViews._cleanup] starts with [self.object.traverse]. *)
Theorem HoloViews_final_cleanup_twice :
  exists w1,
    cleanup quiet (Some 7%nat) true (displayed HoloViews.cls a_Curve) = (Ok tt, w1) /\
    object (self w1) = None /\
    (cleanup quiet (Some 7%nat) true w1).1
    = Raise (AttributeError "'NoneType' object has no attribute 'traverse'").
Proof.
  exists (cleanup quiet (Some 7%nat) true (displayed HoloViews.cls a_Curve)).2.
  split; [|split]; vm_compute; reflexivity.
Qed.

(** * More properties *)

(** ** Resolution and [Pane] *)

(** The loop returns the first class that accepts, after classes that
    all returned false. *)
Lemma first_applicable_selected e v L T :
  PaneBase.first_applicable e v L = Ok (PaneClass T) ->
  exists L1 L2, L = L1 ++ T :: L2 /\
    Forall (fun U => PaneType.applies U e v = Ok false) L1 /\
    PaneType.applies T e v = Ok true.
Proof.
  induction L as [|U L IH]; simpl; [done|].
  destruct (PaneType.applies U e v) as [[]|x] eqn:E; [| |done].
  - intros [= <-]. exists [], L. by repeat split.
  - intros H. destruct (IH H) as (L1 & L2 & -> & HL1 & HT).
    exists (U :: L1), L2. repeat split; [by constructor|done].
Qed.

Lemma ascending_app_inv A x B :
  ascending (A ++ x :: B) -> Forall (fun y => (prec y <= prec x)%Q) A.
Proof.
  induction A as [|a A IH]; simpl; [by constructor|].
  inversion 1 as [|? ? Ha Hasc]; subst. constructor; [|by apply IH].
  eapply Forall_forall in Ha; [exact Ha|]. apply elem_of_app. right. by left.
Qed.

(** What is selected was accepted, and outranks every class that did not
    return false. *)
Lemma selected_accepts_and_outranks reg e v T :
  is_Viewable v = false ->
  PaneBase.get_pane_type reg e v = Ok (PaneClass T) ->
  T ∈ reg /\ PaneType.applies T e v = Ok true /\
  forall U, U ∈ reg -> (prec T < prec U)%Q -> PaneType.applies U e v = Ok false.
Proof.
  intros Hv. unfold PaneBase.get_pane_type. rewrite Hv. intros H.
  apply first_applicable_selected in H as (L1 & L2 & HL & HL1 & HT).
  assert (Hsorted : sorted reg = reverse L2 ++ T :: reverse L1).
  { rewrite <- (reverse_involutive (sorted reg)), HL.
    by rewrite reverse_app, reverse_cons, <- app_assoc. }
  split; [|split; [done|]].
  - apply elem_of_sorted. rewrite Hsorted. apply elem_of_app. right. by left.
  - intros U HU Hrank.
    pose proof (sorted_ascending reg) as Hasc. rewrite Hsorted in Hasc.
    apply ascending_app_inv in Hasc.
    apply elem_of_sorted in HU. rewrite Hsorted in HU.
    apply elem_of_app in HU as [HU|HU].
    + eapply Forall_forall in Hasc; [|exact HU]. simpl in Hasc.
      exfalso. apply (Qlt_irrefl (prec T)).
      eapply Qlt_le_trans; [exact Hrank|exact Hasc].
    + apply elem_of_cons in HU as [->|HU].
      * exact (False_ind _ (Qlt_irrefl _ Hrank)).
      * rewrite elem_of_reverse in HU. rewrite Forall_forall in HL1. by apply HL1.
Qed.

(** X1.  The class that [get_pane_type] selects for a value that is not a
    Viewable is one of the enumerated classes, it accepted the value, and
    every enumerated class of strictly higher precedence returned false on
    it. *)
Theorem get_pane_type_sound_and_maximal reg e v T :
  is_Viewable v = false ->
  PaneBase.get_pane_type reg e v = Ok (PaneClass T) ->
  T ∈ reg /\ PaneType.applies T e v = Ok true /\
  forall U, U ∈ reg -> (prec T < prec U)%Q -> PaneType.applies U e v = Ok false.
Proof. apply selected_accepts_and_outranks. Qed.

(** X2.  The order in which the classes are enumerated can only decide
    between classes of the same precedence: on two permutations of one
    registry the selected classes have equal precedence. *)
Theorem get_pane_type_precedence_order_free reg reg' e v T T' :
  reg ≡ₚ reg' ->
  is_Viewable v = false ->
  PaneBase.get_pane_type reg e v = Ok (PaneClass T) ->
  PaneBase.get_pane_type reg' e v = Ok (PaneClass T') ->
  (prec T == prec T')%Q.
Proof.
  intros Hperm Hv H H'.
  apply selected_accepts_and_outranks in H as (HT & Ha & Hmax); [|done].
  apply selected_accepts_and_outranks in H' as (HT' & Ha' & Hmax'); [|done].
  apply Qle_antisym; apply Qnot_lt_le; intros Hlt.
  - rewrite Hperm in HT. specialize (Hmax' T HT Hlt). congruence.
  - rewrite <- Hperm in HT'. specialize (Hmax T' HT' Hlt). congruence.
Qed.

(** X3.  With [HTML] enumerated, a string is never given to [Str]: whatever
    else is enumerated, [HTML] accepts it and ranks above [Str]. *)
Theorem text_never_resolves_to_Str reg e v s :
  HTML.cls ∈ reg ->
  is_Viewable v = false ->
  text v = Some s ->
  PaneBase.get_pane_type reg e v <> Ok (PaneClass Str.cls).
Proof.
  intros HHTML Hv Hs H.
  apply selected_accepts_and_outranks in H as (_ & _ & Hmax); [|done].
  specialize (Hmax HTML.cls HHTML ltac:(reflexivity)).
  simpl in Hmax. unfold HTML.applies, isinstance_basestring in Hmax.
  rewrite Hs in Hmax. rewrite orb_true_r in Hmax. discriminate Hmax.
Qed.

(** X4.  On a value that is not a Viewable, [Pane] returns an instance that
    holds the value and whose class is the one [get_pane_type] selects, or
    raises what [get_pane_type] raises: the test of [applies] in the
    constructor never fails after the selection. *)
Theorem Pane_wraps_with_resolved_class reg e v :
  is_Viewable v = false ->
  match Pane reg e v with
  | Ok (inr p) =>
      object (as_pane p) = Some v /\
      PaneBase.get_pane_type reg e v = Ok (PaneClass (pane_type (as_pane p))) /\
      PaneType.applies (pane_type (as_pane p)) e v = Ok true
  | Ok (inl _) => False
  | Raise x => PaneBase.get_pane_type reg e v = Raise x
  end.
Proof.
  intros Hv. unfold Pane. rewrite Hv.
  destruct (PaneBase.get_pane_type reg e v) as [[name|T]|x] eqn:H; simpl; [| |done].
  - unfold PaneBase.get_pane_type in H. rewrite Hv in H.
    destruct (first_applicable_cases e v (reverse (sorted reg)))
      as [(T & _ & _ & Hr)|[(U & x & _ & _ & Hr)|Hall]]; try congruence.
    rewrite first_applicable_none in H by done. discriminate H.
  - pose proof H as H'.
    apply selected_accepts_and_outranks in H' as (_ & Ha & _); [|done].
    unfold construct, HoloViews___init__, PaneBase.__init__.
    rewrite Ha. simpl. destruct (PaneType._cleanup T); simpl; by repeat split.
Qed.

(** ** Widget synthesis: overrides, values and keys *)

(** A turn of the loop that returns appends exactly one entry. *)
Lemma build_appends_one d vals wt widgets widget widgets' widget' :
  HoloViews.build d vals wt widgets widget = Ok (widgets', widget') ->
  exists w, widgets' = widgets ++ [w].
Proof.
  unfold HoloViews.build.
  match goal with |- context [match ?x with None => _ | Some _ => _ end] =>
    destruct x as [w|] end; [|done].
  intros [= <- _]. by exists w.
Qed.

Lemma for_dim_appends_one wt values d widgets widget widgets' widget' :
  HoloViews.for_dim wt values d widgets widget = Ok (widgets', widget') ->
  exists w, widgets' = widgets ++ [w].
Proof.
  unfold HoloViews.for_dim.
  destruct (wt !! Dimension.name d) as [[w|t|r]|]; [| |done|].
  - intros [= <- _]. by eexists.
  - apply build_appends_one.
  - apply build_appends_one.
Qed.

Lemma for_dims_length wt values dims : forall widgets widget ws,
  HoloViews.for_dims wt values dims widgets widget = Ok ws ->
  length ws = (length widgets + length dims)%nat.
Proof.
  induction dims as [|d dims IH]; intros widgets widget ws; simpl.
  - intros [= <-]. lia.
  - destruct (HoloViews.for_dim wt values d widgets widget) as [[widgets' widget']|x] eqn:E;
      simpl; [|done].
    intros H. apply IH in H. apply for_dim_appends_one in E as [w ->].
    rewrite length_app in H. simpl in H. lia.
Qed.

(** X5.  When the synthesis returns, it returns the empty list for the
    static frame and otherwise exactly one entry for each dimension. *)
Theorem widgets_one_entry_per_dimension dims keys wt ws :
  HoloViews.widgets_from_dimensions dims keys wt = Ok ws ->
  (HoloViews.static_frame dims keys = true /\ ws = []) \/
  (HoloViews.static_frame dims keys = false /\ length ws = length dims).
Proof.
  unfold HoloViews.widgets_from_dimensions.
  destruct (HoloViews.static_frame dims keys).
  - intros [= <-]. by left.
  - intros H. right. split; [done|]. by apply for_dims_length in H.
Qed.

Lemma for_dims_instances wt values dims : forall widgets widget,
  Forall (fun d => exists w, wt !! Dimension.name d = Some (AWidget w)) dims ->
  HoloViews.for_dims wt values dims widgets widget
  = Ok (widgets ++ omap (fun d => wt !! Dimension.name d) dims).
Proof.
  induction dims as [|d dims IH]; intros widgets widget; simpl.
  - intros _. by rewrite app_nil_r.
  - inversion 1 as [|? ? [w Hw] Hdims]; subst.
    unfold HoloViews.for_dim. rewrite Hw. simpl.
    rewrite IH by done. by rewrite <- app_assoc.
Qed.

(** X6.  When every dimension has a widget instance as override, the
    synthesis returns the empty list on the static frame (the one
    dimension [Frame] with the one key 0), where the overrides are not
    looked at, and otherwise those instances in the order of the
    dimensions, whatever values and ranges the dimensions have. *)
Theorem widgets_override_instances_verbatim dims keys wt :
  Forall (fun d => exists w, wt !! Dimension.name d = Some (AWidget w)) dims ->
  HoloViews.widgets_from_dimensions dims keys wt
  = Ok (if HoloViews.static_frame dims keys then []
        else omap (fun d => wt !! Dimension.name d) dims).
Proof.
  intros Hall. unfold HoloViews.widgets_from_dimensions.
  destruct (HoloViews.static_frame dims keys); [done|].
  by rewrite for_dims_instances.
Qed.

Lemma for_dim_declared wt values values' d widgets widget :
  Dimension.values d <> [] ->
  HoloViews.for_dim wt values d widgets widget
  = HoloViews.for_dim wt values' d widgets widget.
Proof.
  intros Hv. unfold HoloViews.for_dim. by destruct (Dimension.values d).
Qed.

Lemma for_dims_declared wt values values' dims : forall widgets widget,
  Forall (fun d => Dimension.values d <> []) dims ->
  HoloViews.for_dims wt values dims widgets widget
  = HoloViews.for_dims wt values' dims widgets widget.
Proof.
  induction dims as [|d dims IH]; intros widgets widget; simpl; [done|].
  inversion 1 as [|? ? Hd Hdims]; subst.
  rewrite (for_dim_declared wt values values') by done.
  destruct (HoloViews.for_dim wt values' d widgets widget) as [[]|]; simpl; [|done].
  by apply IH.
Qed.

(** X7.  The keys are only read for a dimension without declared values:
    when every dimension declares values, two lists of keys give the same
    result. *)
Theorem declared_values_shadow_keys dims keys keys' wt :
  Forall (fun d => Dimension.values d <> []) dims ->
  HoloViews.static_frame dims keys = false ->
  HoloViews.static_frame dims keys' = false ->
  HoloViews.widgets_from_dimensions dims keys wt
  = HoloViews.widgets_from_dimensions dims keys' wt.
Proof.
  intros Hall Hs Hs'. unfold HoloViews.widgets_from_dimensions.
  rewrite Hs, Hs'. by apply for_dims_declared.
Qed.










Lemma zip_star_singletons {A} (k : A) (ks : list A) :
  zip_star ((fun x => [x]) <$> (k :: ks)) = [k :: ks].
Proof.
  revert k. induction ks as [|k' ks IH]; intros k; [done|].
  change (zip_star ((fun x => [x]) <$> k :: k' :: ks))
    with (zip_with cons [k] (zip_star ((fun x => [x]) <$> (k' :: ks)))).
  by rewrite IH.
Qed.

(** X9.  A single dimension without declared values takes its values from
    the keys: with keys that are not all numeric the result is one Select
    over the keys in their order, on the first key. *)
Theorem observed_keys_fill_select d k ks wt :
  wt !! Dimension.name d = None ->
  Dimension.values d = [] ->
  Dimension.default d = None ->
  forallb isnumeric (k :: ks) = false ->
  HoloViews.widgets_from_dimensions [d] ((fun x => [x]) <$> (k :: ks)) wt
  = Ok [AWidget (OptionsWidget Select (Dimension.label d) (OptionList (k :: ks)) k)].
Proof.
  intros Hov Hvals Hdef Hnum. unfold HoloViews.widgets_from_dimensions.
  assert (Hs : HoloViews.static_frame [d] ((fun x => [x]) <$> (k :: ks)) = false).
  { destruct ks as [|k' ks]; [|by destruct k]. destruct k; [|done].
    simpl in Hnum. discriminate Hnum. }
  rewrite Hs, zip_star_singletons.
  unfold dict. simpl. unfold HoloViews.for_dim. rewrite Hov, Hvals.
  unfold dict_get, Dimension.eqb. rewrite !String.eqb_refl. simpl.
  unfold HoloViews.build. cbv iota. rewrite Hnum, Hdef. reflexivity.
Qed.

(** ** Image headers: bounds and malformed data *)

Lemma length_slice {A} i j (data : list A) :
  length (slice i j data) = (Nat.min (j - i) (length data - i))%nat.
Proof. unfold slice. by rewrite length_take, length_drop. Qed.

(** X10.  [PNG._imgshape] returns exactly when there are at least 24 bytes,
    and then two numbers below 2^32; on fewer bytes it raises
    [struct.error]. *)
Theorem PNG_imgshape_needs_24_bytes data :
  match PNG._imgshape data with
  | Ok (w, h) =>
      (24 <= length data)%nat /\
      (0 <= w < 4294967296)%Z /\ (0 <= h < 4294967296)%Z
  | Raise e =>
      (length data < 24)%nat /\ e = struct_error "unpack requires a buffer of 8 bytes"
  end.
Proof.
  unfold PNG._imgshape. pose proof (length_slice 16 24 data) as HL.
  destruct (slice 16 24 data) as [|b0 [|b1 [|b2 [|b3 [|b4 [|b5 [|b6 [|b7 [|b8 l]]]]]]]]];
    cbn [length] in HL; simpl; try (split; [lia|reflexivity]).
  - pose proof (ord_range b0). pose proof (ord_range b1). pose proof (ord_range b2).
    pose proof (ord_range b3). pose proof (ord_range b4). pose proof (ord_range b5).
    pose proof (ord_range b6). pose proof (ord_range b7). lia.
Qed.

(** X11.  [GIF._imgshape] returns exactly when there are at least 10 bytes,
    and then two numbers below 2^16; on fewer bytes it raises
    [struct.error]. *)
Theorem GIF_imgshape_needs_10_bytes data :
  match GIF._imgshape data with
  | Ok (w, h) =>
      (10 <= length data)%nat /\ (0 <= w < 65536)%Z /\ (0 <= h < 65536)%Z
  | Raise e =>
      (length data < 10)%nat /\ e = struct_error "unpack requires a buffer of 4 bytes"
  end.
Proof.
  unfold GIF._imgshape. pose proof (length_slice 6 10 data) as HL.
  destruct (slice 6 10 data) as [|b0 [|b1 [|b2 [|b3 [|b4 l]]]]];
    cbn [length] in HL; simpl; try (split; [lia|reflexivity]).
  - pose proof (ord_range b0). pose proof (ord_range b1). pose proof (ord_range b2).
    pose proof (ord_range b3). lia.
Qed.

Lemma unpack_BE_HH_range buf a b :
  unpack_BE_HH buf = Ok (a, b) -> (0 <= a < 65536)%Z /\ (0 <= b < 65536)%Z.
Proof.
  unfold unpack_BE_HH.
  destruct buf as [|b0 [|b1 [|b2 [|b3 [|b4 l]]]]]; try done.
  intros [= <- <-].
  pose proof (ord_range b0). pose proof (ord_range b1). pose proof (ord_range b2).
  pose proof (ord_range b3). lia.
Qed.

Lemma scan_outcomes fuel : forall c b,
  match JPG.scan fuel c b with
  | Ok (Some (w, h)) => (0 <= w < 65536)%Z /\ (0 <= h < 65536)%Z
  | Ok None => True
  | Raise e => (exists msg, e = TypeError msg) \/ (exists msg, e = struct_error msg) \/
               e = Exception "unreachable"
  end.
Proof.
  induction fuel as [|fuel IH]; intros c b; [simpl; by right; right|].
  cbn [JPG.scan]. destruct c as [|x c]; [done|].
  destruct (ord1 (x :: c)) as [o|e] eqn:Eo; cbn [mbind result_bind].
  2:{ apply ord1_raises in Eo as [? ->]. left. eauto. }
  destruct (o =? 218)%Z; [done|].
  destruct (JPG.until_FF (x :: c) b) as [[c1 b1]|e] eqn:E1; cbn [mbind result_bind].
  2:{ apply until_FF_raises in E1 as [? ->]. left. eauto. }
  destruct (JPG.while_FF c1 b1) as [[c2 b2]|e] eqn:E2; cbn [mbind result_bind].
  2:{ apply while_FF_raises in E2 as [? ->]. left. eauto. }
  destruct (ord1 c2) as [o2|e] eqn:Eo2; cbn [mbind result_bind].
  2:{ apply ord1_raises in Eo2 as [? ->]. left. eauto. }
  destruct ((192 <=? o2)%Z && (o2 <=? 195)%Z).
  - destruct (read 3 b2) as [? b3]. destruct (read 4 b3) as [buf b4].
    destruct (unpack_BE_HH buf) as [[h w]|e] eqn:Eu; cbn [mbind result_bind].
    + apply unpack_BE_HH_range in Eu. tauto.
    + apply unpack_BE_HH_raises in Eu as [? ->]. right. left. eauto.
  - destruct (read 2 b2) as [buf b3].
    destruct (unpack_BE_H buf) as [n|e] eqn:Eu; cbn [mbind result_bind].
    2:{ apply unpack_BE_H_raises in Eu as [? ->]. right. left. eauto. }
    destruct (read (n - 2) b3) as [? b4]. destruct (read 1 b4) as [c5 b5].
    apply IH.
Qed.

(** X12.  [JPG._imgshape] returns two numbers below 2^16, or raises a
    TypeError (from [ord] at the end of the data), a [struct.error] (a
    field cut short) or the UnboundLocalError of a scan that found no
    frame header; nothing else. *)
Theorem JPG_imgshape_outcomes data :
  match JPG._imgshape data with
  | Ok (w, h) => (0 <= w < 65536)%Z /\ (0 <= h < 65536)%Z
  | Raise e =>
      (exists msg, e = TypeError msg) \/ (exists msg, e = struct_error msg) \/
      e = UnboundLocalError "local variable 'w' referenced before assignment"
  end.
Proof.
  unfold JPG._imgshape.
  destruct (read 2 data) as [? b]. destruct (read 1 b) as [c b'].
  pose proof (scan_outcomes (S (length b')) c b') as H.
  pose proof (scan_fuel_suffices (S (length b')) c b' ltac:(lia)) as Hfuel.
  destruct (JPG.scan (S (length b')) c b') as [[[w h]|]|e]; cbn [mbind result_bind].
  - done.
  - by right; right.
  - destruct H as [H|[H|H]]; [by left|by right; left|]. congruence.
Qed.

Lemma scan_S fuel c b :
  JPG.scan (S fuel) c b =
  match c with
  | [] => Ok None
  | _ :: _ =>
      o ← ord1 c;
      if (o =? 218)%Z then Ok None
      else
        '(c, b) ← JPG.until_FF c b;
        '(c, b) ← JPG.while_FF c b;
        o ← ord1 c;
        if (192 <=? o)%Z && (o <=? 195)%Z then
          let '(_, b) := read 3 b in
          let '(buf, b) := read 4 b in
          '(h, w) ← unpack_BE_HH buf;
          Ok (Some (w, h))
        else
          let '(buf, b) := read 2 b in
          n ← unpack_BE_H buf;
          let '(_, b) := read (n - 2) b in
          let '(c, b) := read 1 b in
          JPG.scan fuel c b
  end.
Proof. reflexivity. Qed.

Lemma scan_short_length fuel m l1 l2 rest :
  m <> Byte.xff ->
  is_SOF m = false ->
  (ord l1 * 256 + ord l2 < 2)%Z ->
  JPG.scan (S (S fuel)) [Byte.xff] (m :: l1 :: l2 :: rest) = Ok None.
Proof.
  intros Hm Hsof Hlen. rewrite scan_S. cbn [ord1 mbind result_bind].
  change (ord Byte.xff =? 218)%Z with false. cbv iota.
  rewrite until_FF_at_FF. cbn [mbind result_bind].
  rewrite while_FF_marker by done.
  cbn [mbind result_bind ord1]. fold (is_SOF m). rewrite Hsof.
  change (read 2 (l1 :: l2 :: rest)) with ([l1; l2], rest). cbv iota beta.
  cbn [unpack_BE_H mbind result_bind].
  unfold read at 1.
  replace (ord l1 * 256 + ord l2 - 2 <? 0)%Z with true by lia.
  reflexivity.
Qed.

(** X13.  A first segment whose length field is 0 or 1 makes
    [b.read(length - 2)] read to the end of the data: whatever follows,
    also a frame header, the result is the UnboundLocalError. *)
Theorem JPG_short_length_swallows soi m l1 l2 rest :
  length soi = 2%nat ->
  m <> Byte.xff ->
  is_SOF m = false ->
  (ord l1 * 256 + ord l2 < 2)%Z ->
  JPG._imgshape (soi ++ [Byte.xff; m; l1; l2] ++ rest)
  = Raise (UnboundLocalError "local variable 'w' referenced before assignment").
Proof.
  intros Hsoi Hm Hsof Hlen. unfold JPG._imgshape.
  unfold read at 1. change (2 <? 0)%Z with false. cbv iota.
  change (Z.to_nat 2) with 2%nat. rewrite <- Hsoi, drop_app_length.
  change (read 1 ([Byte.xff; m; l1; l2] ++ rest))
    with ([Byte.xff], m :: l1 :: l2 :: rest). cbv iota beta.
  change (length (m :: l1 :: l2 :: rest)) with (S (S (S (length rest)))).
  by rewrite scan_short_length.
Qed.

Lemma ord_neq a b : a <> b -> (ord a =? ord b)%Z = false.
Proof. intros H. apply Z.eqb_neq. intros E. by apply H, ord_inj. Qed.

Lemma until_FF_garbage junk : forall j tl,
  j <> Byte.xff ->
  Forall (fun x => x <> Byte.xff) junk ->
  JPG.until_FF [j] (junk ++ Byte.xff :: tl) = Ok ([Byte.xff], tl).
Proof.
  induction junk as [|x junk IH]; intros j tl Hj Hjunk.
  - simpl. change 255%Z with (ord Byte.xff). rewrite ord_neq by done.
    by destruct tl.
  - inversion Hjunk; subst. simpl.
    change 255%Z with (ord Byte.xff). rewrite ord_neq by done.
    by apply IH.
Qed.

Lemma while_FF_fill n : forall m tl,
  m <> Byte.xff ->
  JPG.while_FF [Byte.xff] (replicate n Byte.xff ++ m :: tl) = Ok ([m], tl).
Proof.
  induction n as [|n IH]; intros m tl Hm.
  - by apply while_FF_marker.
  - change (JPG.while_FF [Byte.xff] (replicate (S n) Byte.xff ++ m :: tl))
      with (JPG.while_FF [Byte.xff] (replicate n Byte.xff ++ m :: tl)).
    by apply IH.
Qed.

Lemma scan_after_FF fuel n m l1 l2 p h w rest c b :
  is_SOF m = true ->
  (0 <= w < 65536)%Z -> (0 <= h < 65536)%Z ->
  c <> [] ->
  ord1 c ≫= (fun o => Ok (o =? 218)%Z) = Ok false ->
  JPG.until_FF c b
  = Ok ([Byte.xff], replicate n Byte.xff ++ m :: [l1; l2; p] ++ pack_BE_H h ++ pack_BE_H w ++ rest) ->
  JPG.scan (S fuel) c b = Ok (Some (w, h)).
Proof.
  intros Hm Hw Hh Hc Hda Huntil. rewrite scan_S.
  destruct c as [|x c]; [done|].
  destruct (ord1 (x :: c)) as [o|] eqn:Eo; [|done]. cbn [mbind result_bind] in *.
  injection Hda as ->. rewrite Huntil. cbn [mbind result_bind].
  rewrite while_FF_fill by by apply is_SOF_not_FF.
  cbn [mbind result_bind ord1]. fold (is_SOF m). rewrite Hm.
  unfold read. simpl. rewrite !ord_chr.
  f_equal. f_equal. f_equal; Z.div_mod_to_equations; lia.
Qed.

(** X14.  Bytes other than 0xFF before the first marker (not starting with
    0xDA) and any number of 0xFF fill bytes before the marker of the frame
    header are stepped over. *)
Theorem JPG_skips_garbage_and_fill soi junk n m l1 l2 p h w rest :
  length soi = 2%nat ->
  Forall (fun x => x <> Byte.xff) junk ->
  head junk <> Some Byte.xda ->
  is_SOF m = true ->
  (0 <= w < 65536)%Z -> (0 <= h < 65536)%Z ->
  JPG._imgshape (soi ++ junk ++ Byte.xff :: replicate n Byte.xff
                     ++ m :: [l1; l2; p] ++ pack_BE_H h ++ pack_BE_H w ++ rest)
  = Ok (w, h).
Proof.
  intros Hsoi Hjunk Hda Hm Hw Hh. unfold JPG._imgshape.
  unfold read at 1. change (2 <? 0)%Z with false. cbv iota.
  change (Z.to_nat 2) with 2%nat. rewrite <- Hsoi, drop_app_length.
  destruct junk as [|j junk].
  - cbn [app]. unfold read at 1. change (1 <? 0)%Z with false. cbv iota.
    change (Z.to_nat 1) with 1%nat. cbn [take drop]. rewrite ?drop_0.
    rewrite (scan_after_FF _ n m l1 l2 p h w rest); try done.
    apply until_FF_at_FF.
  - inversion Hjunk as [|? ? Hj Hjunk']; subst.
    cbn [app]. unfold read at 1. change (1 <? 0)%Z with false. cbv iota.
    change (Z.to_nat 1) with 1%nat. cbn [take drop]. rewrite ?drop_0.
    rewrite (scan_after_FF _ n m l1 l2 p h w rest); try done.
    + simpl. f_equal. change 218%Z with (ord Byte.xda). apply ord_neq.
      intros ->. by apply Hda.
    + by apply until_FF_garbage.
Qed.

(** ** Properties of image and YT panes *)

Ltac lookup_props :=
  repeat split;
  repeat first [rewrite lookup_insert_eq | rewrite lookup_insert_ne by done];
  try done.

Lemma DivPaneBase_properties_lookup self :
  DivPaneBase__get_properties self !! "width" = PInt <$> Params.width self /\
  DivPaneBase__get_properties self !! "height" = PInt <$> Params.height self /\
  DivPaneBase__get_properties self !! "sizing_mode" = PStr <$> Params.sizing_mode self /\
  DivPaneBase__get_properties self !! "style" = PStyle <$> Params.style self /\
  DivPaneBase__get_properties self !! "text" = None.
Proof.
  unfold DivPaneBase__get_properties, set_if_given.
  destruct (Params.width self), (Params.height self), (Params.sizing_mode self),
    (Params.style self); simpl; repeat split; by simplify_map_eq.
Qed.

Section ImageSizes.
Variable b64encode : list Byte.byte -> string.
Variable scale : Z -> Z -> Z -> Z.

(** X15.  With both [width] and [height] set on the pane,
    [Image._get_properties] uses them for the properties and the markup,
    but it still calls [_imgshape] first: data whose header cannot be read
    raises all the same. *)
Theorem Image_explicit_size_still_reads_header imgtype _imgshape self data sw sh :
  Params.width self = Some sw ->
  Params.height self = Some sh ->
  match _imgshape data with
  | Ok _ =>
      exists props,
        Image__get_properties b64encode scale imgtype _imgshape self (Ok data) = Ok props /\
        props !! "width" = Some (PInt sw) /\ props !! "height" = Some (PInt sh) /\
        props !! "text" =
          Some (PStr ("<img src='"
                      +:+ ("data:image/" +:+ imgtype +:+ ";base64," +:+ b64encode data)
                      +:+ "' width=" +:+ pretty sw
                      +:+ " height=" +:+ pretty sh +:+ "></img>"))
  | Raise e =>
      Image__get_properties b64encode scale imgtype _imgshape self (Ok data) = Raise e
  end.
Proof.
  intros Hw Hh. unfold Image__get_properties. cbn [mbind result_bind].
  destruct (_imgshape data) as [[w h]|e]; cbn [mbind result_bind]; [|done].
  rewrite Hw, Hh. cbn [mbind result_bind].
  eexists. split; [reflexivity|]. lookup_props.
Qed.

(** X16.  Without [width] and [height] on the pane, a PNG pane takes both
    from the header of the image, and passes [sizing_mode] and [style]
    on. *)
Theorem PNG_natural_size self prefix W H rest :
  Params.width self = None ->
  Params.height self = None ->
  length prefix = 16%nat ->
  (0 <= W < 4294967296)%Z -> (0 <= H < 4294967296)%Z ->
  exists props,
    Image__get_properties b64encode scale PNG.imgtype PNG._imgshape self
      (Ok (prefix ++ pack_BE_L W ++ pack_BE_L H ++ rest)) = Ok props /\
    props !! "width" = Some (PInt W) /\ props !! "height" = Some (PInt H) /\
    props !! "sizing_mode" = PStr <$> Params.sizing_mode self /\
    props !! "style" = PStyle <$> Params.style self.
Proof.
  intros Hw Hh Hp HW HH. unfold Image__get_properties. cbn [mbind result_bind].
  rewrite PNG_imgshape_header by done. cbn [mbind result_bind].
  rewrite Hw, Hh. eexists. split; [reflexivity|].
  destruct (DivPaneBase_properties_lookup self) as (_ & _ & Hs & Hst & _).
  lookup_props.
Qed.

(** X17.  With only one of [width] and [height] set, the other is scaled by
    a division by the header's width or height: a header that has 0 there
    makes [_get_properties] raise ZeroDivisionError. *)
Theorem Image_one_sided_size_divides_by_header imgtype _imgshape self data w h :
  _imgshape data = Ok (w, h) ->
  (Params.width self <> None /\ Params.height self = None /\ w = 0%Z) \/
  (Params.width self = None /\ Params.height self <> None /\ h = 0%Z) ->
  Image__get_properties b64encode scale imgtype _imgshape self (Ok data)
  = Raise (Exception "ZeroDivisionError").
Proof.
  intros Hshape Hcase. unfold Image__get_properties. cbn [mbind result_bind].
  rewrite Hshape. cbn [mbind result_bind].
  destruct Hcase as [(Hw & Hh & ->)|(Hw & Hh & ->)]; rewrite ?Hw, ?Hh.
  - by destruct (Params.width self).
  - by destruct (Params.height self).
Qed.
End ImageSizes.

Lemma PNG_imgshape_long data :
  (24 <= length data)%nat -> exists w h, PNG._imgshape data = Ok (w, h).
Proof.
  intros Hlen. unfold PNG._imgshape.
  assert (HL : length (slice 16 24 data) = 8%nat).
  { unfold slice. rewrite length_take, length_drop. lia. }
  destruct (slice 16 24 data) as [|b0 [|b1 [|b2 [|b3 [|b4 [|b5 [|b6 [|b7 [|b8 l]]]]]]]]];
    try discriminate HL.
  simpl. eauto.
Qed.

Lemma png_shapes_cons_png k img wh plots :
  PNG._imgshape img = Ok wh ->
  png_shapes ((k, Some img) :: plots) = wh :: png_shapes plots.
Proof. intros H. unfold png_shapes. simpl. by rewrite H. Qed.

Lemma png_shapes_cons_other k plots :
  png_shapes ((k, None) :: plots) = png_shapes plots.
Proof. reflexivity. Qed.

Lemma foldr_max_start w width (l : list Z) :
  foldr Z.max (Z.max w width) l = Z.max w (foldr Z.max width l).
Proof. induction l as [|x l IH]; simpl; [done|]. rewrite IH. lia. Qed.

Lemma YT_plot_sizes_spec plots : forall width height,
  Forall readable plots ->
  YT_plot_sizes plots width height
  = Ok (foldr Z.max width (fst <$> png_shapes plots),
        (height + foldr Z.add 0 (snd <$> png_shapes plots))%Z).
Proof.
  induction plots as [|[k [img|]] plots IH]; intros width height Hall.
  - simpl. f_equal. f_equal. lia.
  - inversion Hall as [|? ? Hr Hall']; subst. unfold readable in Hr. simpl in Hr.
    destruct (PNG_imgshape_long img Hr) as (w & h & Hpng).
    rewrite (png_shapes_cons_png _ _ _ _ Hpng).
    cbn [YT_plot_sizes]. rewrite Hpng. cbn [mbind result_bind].
    rewrite IH by done. rewrite !fmap_cons. cbn [foldr fst snd].
    rewrite foldr_max_start. f_equal. f_equal. lia.
  - inversion Hall; subst. rewrite png_shapes_cons_other.
    cbn [YT_plot_sizes]. by apply IH.
Qed.

(** X18.  Without [width] and [height] on the pane, [YT._get_properties]
    sets the width to the largest width and the height to the sum of the
    heights of the plots that have a PNG, from their headers. *)
Theorem YT_size_is_max_width_and_total_height self p plots :
  Params.width self = None ->
  Params.height self = None ->
  Forall readable plots ->
  YT__get_properties self p plots
  = Ok (<["height" := PInt (foldr Z.add 0%Z (snd <$> png_shapes plots))]>
          (<["width" := PInt (foldr Z.max 0%Z (fst <$> png_shapes plots))]> p)).
Proof.
  intros Hw Hh Hall. unfold YT__get_properties. rewrite Hw, Hh.
  rewrite YT_plot_sizes_spec by done. reflexivity.
Qed.

(** X19.  A plot whose PNG is shorter than 24 bytes makes
    [YT._get_properties] raise [struct.error] when [width] or [height] is
    not set; with both set the plots are not read and the properties are
    returned as they came. *)
Theorem YT_reads_plots_unless_sized self p pre k img post :
  Forall readable pre ->
  (length img < 24)%nat ->
  YT__get_properties self p (pre ++ (k, Some img) :: post)
  = match Params.width self, Params.height self with
    | Some _, Some _ => Ok p
    | _, _ => Raise (struct_error "unpack requires a buffer of 8 bytes")
    end.
Proof.
  intros Hpre Himg. unfold YT__get_properties.
  assert (Hloop : forall width height,
            YT_plot_sizes (pre ++ (k, Some img) :: post) width height
            = Raise (struct_error "unpack requires a buffer of 8 bytes")).
  { induction Hpre as [|[k' [img'|]] pre Hr Hpre IH]; intros width height.
    - cbn [app YT_plot_sizes].
      assert (Hs : PNG._imgshape img
                   = Raise (struct_error "unpack requires a buffer of 8 bytes")).
      { unfold PNG._imgshape.
        assert (HL : (length (slice 16 24 img) < 8)%nat).
        { unfold slice. rewrite length_take, length_drop. lia. }
        destruct (slice 16 24 img) as [|b0 [|b1 [|b2 [|b3 [|b4 [|b5 [|b6 [|b7 l]]]]]]]];
          try reflexivity. simpl in HL. lia. }
      by rewrite Hs.
    - unfold readable in Hr. simpl in Hr.
      destruct (PNG_imgshape_long img' Hr) as (w & h & Hpng).
      cbn [app YT_plot_sizes]. rewrite Hpng. cbn [mbind result_bind]. apply IH.
    - cbn [app YT_plot_sizes]. apply IH. }
  destruct (Params.width self), (Params.height self); try reflexivity;
    by rewrite Hloop.
Qed.

(** ** What a change and a cleanup leave alone *)

Lemma run_update_models_one_slot c cb w :
  let w' := (PaneBase.run_update_models c cb w).2 in
  match cb with
  | update_in_place _ => children w' = children w
  | replace_model old _ => one_slot (Some old) (children w) (children w')
  end.
Proof.
  destruct cb as [old|old new]; simpl.
  - unfold call. by destruct (answer c (trace w) (call__update old)).
  - unfold mbind, M_bind, get_children. simpl.
    destruct (list_index old (children w)) as [i|] eqn:Ei; simpl; [|by left].
    right. by exists old, i, new.
Qed.

(** X20.  Whatever the calls below do and however the change ends, an
    assignment to [object] leaves [parent.children] as it was or replaces
    the entry at the index of the watched model; the number of children
    and the class of the pane never change. *)
Theorem set_object_touches_one_slot c comm v w :
  let w' := (set_object c comm v w).2 in
  one_slot (head (history w)) (children w) (children w') /\
  length (children w') = length (children w) /\
  pane_type (self w') = pane_type (self w).
Proof.
  assert (Hgoal : let w' := (set_object c comm v w).2 in
            one_slot (head (history w)) (children w) (children w') /\
            pane_type (self w') = pane_type (self w)).
  { destruct w as [[T o] ch hi nt tr].
    unfold set_object, update_pane, PaneBase.update_pane.
    unfold mbind, M_bind, set_self_object, get_self, get_history. simpl.
    destruct hi as [|old rest]; simpl; [by split; [left|]|].
    destruct (PaneType._updates T); simpl.
    - unfold mret, M_ret. destruct comm; simpl; [|by split; [left|]].
      unfold call. simpl.
      destruct (answer c tr (call__update old)); simpl; [by split; [left|]|].
      destruct (answer c _ call_push); simpl; by split; [left|].
    - set (w0 := {| self := _ |}).
      pose proof (self__cleanup_framed c {| pane_type := T; object := v |}
                    (Some old) false w0) as (Hc & Hh & Hn & Hp & HT).
      destruct (self__cleanup c _ (Some old) false w0) as [[[]|e] w1];
        simpl in *; [|by split; [left; congruence|]].
      unfold call_get_model, log. simpl.
      destruct (_get_model c (trace w1)) as [new|e]; simpl;
        [|by split; [left; congruence|]].
      unfold mret, M_ret. destruct comm; simpl; [|by split; [left; congruence|]].
      unfold mbind, M_bind, get_children. simpl. rewrite Hc.
      destruct (list_index old ch) as [i|] eqn:Ei; simpl;
        [|by split; [left|]].
      unfold call. simpl.
      split; [|by destruct (answer c _ call_push)].
      right. exists old, i, new.
      by destruct (answer c _ call_push). }
  destruct Hgoal as [Hslot HT]. split; [done|]. split; [|done].
  destruct Hslot as [->|(m & i & new & _ & _ & ->)]; [done|].
  apply length_insert.
Qed.

(** X21.  On the replace path, when the watched model is not among the
    children of the parent, [_cleanup] and [_get_model] have already run
    when [index] raises ValueError: the children and the watched model are
    unchanged.  With a comm the assignment raises, without one the next
    tick does. *)
Theorem replace_needs_old_child c comm w v old rest new :
  (forall tr ev, answer c tr ev = None) ->
  PaneType._updates (pane_type (self w)) = false ->
  history w = old :: rest ->
  next_tick w = [] ->
  list_index old (children w) = None ->
  _get_model c (trace w ++ cleanup_calls (pane_type (self w)) v (Some old) false)
    = Ok new ->
  exists w',
    apply_change c comm (Some v) w
    = (if comm then Raise (ValueError "x is not in list") else Ok tt,
       if comm then [] else [ValueError "x is not in list"], w') /\
    children w' = children w /\ history w' = history w /\
    trace w' = trace w ++ cleanup_calls (pane_type (self w)) v (Some old) false
                 ++ [call__get_model].
Proof.
  intros Hc Hu Hh Hq Hi Hnew.
  destruct w as [[T o] ch hi nt tr]. simpl in *. subst hi nt.
  unfold apply_change, set_object, update_pane, PaneBase.update_pane.
  unfold mbind, M_bind, set_self_object, get_self, get_history. simpl.
  rewrite Hu. rewrite self__cleanup_returns by done.
  unfold call_get_model, log. simpl. rewrite Hnew.
  unfold mret, M_ret. destruct comm.
  - unfold PaneBase.run_update_models.
    unfold mbind, M_bind, get_children. simpl. rewrite Hi. simpl.
    eexists. split; [reflexivity|]. simpl. by rewrite <- ?app_assoc.
  - unfold add_next_tick_callback, PaneBase.tick. simpl.
    unfold PaneBase.run_update_models.
    unfold mbind, M_bind, get_children. simpl. rewrite Hi. simpl.
    eexists. split; [reflexivity|]. simpl. by rewrite <- ?app_assoc.
Qed.

Lemma call_self c ev w : self (call c ev w).2 = self w.
Proof. unfold call. by destruct (answer c (trace w) ev). Qed.

Lemma for_each_keeps_self {A} (f : A -> M unit) l :
  (forall x w, self (f x w).2 = self w) -> forall w, self (for_each f l w).2 = self w.
Proof.
  intros Hf. induction l as [|x l IH]; intros w; simpl; [done|].
  unfold mbind, M_bind. specialize (Hf x w).
  destruct (f x w) as [[[]|e] w1]; simpl in *; [|done]. by rewrite IH.
Qed.

(** X22.  A cleanup that is not final, as [update_pane] makes it before
    it replaces a model, leaves the pane as it was, object and class,
    however it ends and for both implementations of [_cleanup]; it
    touches neither the children, the history, the tick queue nor the
    number of pushes. *)
Theorem cleanup_not_final_keeps_pane c model w :
  let w' := (cleanup c model false w).2 in
  self w' = self w /\ framed w w'.
Proof.
  split.
  - unfold cleanup, mbind, M_bind, get_self, self__cleanup.
    assert (HP : forall w0, self (PaneBase._cleanup c model false w0).2 = self w0).
    { intros w0. unfold PaneBase._cleanup, mbind, M_bind.
      pose proof (call_self c (Reactive__cleanup model false) w0) as Hs.
      by destruct (call c _ w0) as [[[]|e] w1]. }
    destruct (PaneType._cleanup (pane_type (self w))); [apply HP|].
    unfold HoloViews._cleanup. unfold mbind at 1, M_bind at 1, get_self_object.
    destruct (object (self w)) as [o|] eqn:Ho; [|done].
    unfold mbind at 1, M_bind at 1.
    match goal with |- context [for_each ?f ?l w] =>
      pose proof (for_each_keeps_self f l) as Hs;
      destruct (for_each f l w) as [[[]|e] w1] eqn:E end.
    all: specialize (Hs ltac:(
          intros dmap w2; apply for_each_keeps_self; intros stream w3;
          apply for_each_keeps_self; intros sub w4;
          destruct (ismethod sub); [|done];
          destruct (bool_decide _); [apply call_self|done]) w);
      rewrite E in Hs; simpl in Hs.
    + by rewrite HP.
    + done.
  - unfold cleanup, mbind, M_bind, get_self.
    apply (self__cleanup_framed c (self w) model false w).
Qed.



(** ** Which image class takes a string *)

Lemma Image_applies_text imgtype e v s :
  attributes v = [] ->
  text v = Some s ->
  Image.applies imgtype e v = Ok true ->
  endswith s ("." +:+ imgtype) = true.
Proof.
  intros Ha Hs. unfold Image.applies, hasattr. rewrite Ha, Hs.
  rewrite bool_decide_false by apply not_elem_of_nil. simpl.
  intros [= H]. apply orb_true_iff in H as [H|H];
    apply andb_true_iff in H; tauto.
Qed.

Lemma prefix_same_length a : forall b r,
  String.prefix a r = true -> String.prefix b r = true ->
  String.length a = String.length b -> a = b.
Proof.
  induction a as [|x a IH]; intros [|y b] [|z r]; simpl; try done.
  destruct (ascii_dec x z) as [->|]; [|done].
  destruct (ascii_dec y z) as [->|]; [|done].
  intros Ha Hb [= Hlen]. f_equal. by eapply IH.
Qed.

Lemma endswith_one_extension s x y :
  String.length (String.rev x) = String.length (String.rev y) ->
  String.rev x <> String.rev y ->
  endswith s x = true -> endswith s y = true -> False.
Proof.
  unfold endswith. intros Hlen Hne Hx Hy. apply Hne.
  by eapply prefix_same_length.
Qed.

(** X24.  On a string without attributes at most one of [PNG], [GIF] and
    [JPG] applies, whatever the file system holds: each asks for its own
    extension at the end of the string. *)
Theorem raster_classes_disjoint_on_text e v s :
  attributes v = [] ->
  text v = Some s ->
  ~ (PaneType.applies PNG.cls e v = Ok true /\ PaneType.applies GIF.cls e v = Ok true) /\
  ~ (PaneType.applies PNG.cls e v = Ok true /\ PaneType.applies JPG.cls e v = Ok true) /\
  ~ (PaneType.applies GIF.cls e v = Ok true /\ PaneType.applies JPG.cls e v = Ok true).
Proof.
  intros Ha Hs. repeat split; intros [H1 H2];
    apply (Image_applies_text _ e v s Ha Hs) in H1;
    apply (Image_applies_text _ e v s Ha Hs) in H2;
    (eapply endswith_one_extension; [| |exact H1|exact H2];
     [reflexivity|vm_compute; intros Heq; discriminate Heq]).
Qed.

Lemma raster_classes_disjoint_on_text_witness :
  PaneType.applies PNG.cls bare_env a_url = Ok true /\
  PaneType.applies GIF.cls bare_env a_url = Ok false /\
  PaneType.applies JPG.cls bare_env a_url = Ok false.
Proof.
  destruct (raster_classes_disjoint_on_text bare_env a_url
              "https://example.org/logo.png" eq_refl eq_refl) as (Hg & Hj & _).
  split; [reflexivity|]. split.
  - destruct (PaneType.applies GIF.cls bare_env a_url) as [[]|x] eqn:E;
      [exfalso; apply Hg; by split| reflexivity | discriminate E].
  - destruct (PaneType.applies JPG.cls bare_env a_url) as [[]|x] eqn:E;
      [exfalso; apply Hj; by split| reflexivity | discriminate E].
Defined.

(** ** The properties above on the examples *)

Lemma get_pane_type_sound_and_maximal_witness :
  PaneType.applies HTML.cls bare_env a_string = Ok true /\
  PaneType.applies Bokeh.cls bare_env a_string = Ok false.
Proof.
  destruct (get_pane_type_sound_and_maximal concrete_descendents bare_env a_string
              HTML.cls eq_refl eq_refl) as (_ & Ha & Hmax).
  split; [exact Ha|]. apply Hmax; [|reflexivity].
  unfold concrete_descendents. rewrite !elem_of_cons. tauto.
Defined.

Lemma get_pane_type_precedence_order_free_witness :
  (prec SVG.cls == prec PNG.cls)%Q.
Proof.
  apply (get_pane_type_precedence_order_free concrete_descendents
           (reverse concrete_descendents) bare_env png_and_svg).
  - symmetry. apply reverse_Permutation.
  - reflexivity.
  - reflexivity.
  - reflexivity.
Defined.

Lemma text_never_resolves_to_Str_witness :
  PaneBase.get_pane_type concrete_descendents bare_env a_string
  <> Ok (PaneClass Str.cls).
Proof.
  apply (text_never_resolves_to_Str concrete_descendents bare_env a_string
           "<b>hello</b>").
  - unfold concrete_descendents. rewrite !elem_of_cons. tauto.
  - reflexivity.
  - reflexivity.
Defined.

Lemma Pane_wraps_with_resolved_class_witness :
  match Pane concrete_descendents plotting_env a_Curve with
  | Ok (inr p) =>
      object (as_pane p) = Some a_Curve /\
      PaneBase.get_pane_type concrete_descendents plotting_env a_Curve
        = Ok (PaneClass (pane_type (as_pane p))) /\
      PaneType.applies (pane_type (as_pane p)) plotting_env a_Curve = Ok true
  | Ok (inl _) => False
  | Raise x =>
      PaneBase.get_pane_type concrete_descendents plotting_env a_Curve = Raise x
  end.
Proof.
  exact (Pane_wraps_with_resolved_class concrete_descendents plotting_env a_Curve
           eq_refl).
Defined.

Lemma widgets_one_entry_per_dimension_witness :
  (HoloViews.static_frame [level; free] [] = true /\ [level_slider; level_slider] = []) \/
  (HoloViews.static_frame [level; free] [] = false /\
   length [level_slider; level_slider] = length [level; free]).
Proof.
  exact (widgets_one_entry_per_dimension [level; free] [] ∅
           [level_slider; level_slider] eq_refl).
Defined.

Lemma widgets_override_instances_verbatim_witness :
  HoloViews.widgets_from_dimensions [color; free] [] given_widgets
  = Ok [AWidget (GivenWidget "picker"); AWidget (GivenWidget "knob")] /\
  HoloViews.widgets_from_dimensions [Frame] [[PyNum 0]] Frame_widget = Ok [].
Proof.
  split.
  - apply (widgets_override_instances_verbatim [color; free] [] given_widgets).
    repeat constructor; eexists; reflexivity.
  - apply (widgets_override_instances_verbatim [Frame] [[PyNum 0]] Frame_widget).
    repeat constructor; eexists; reflexivity.
Defined.

Lemma declared_values_shadow_keys_witness :
  HoloViews.widgets_from_dimensions [color; count] [[PyStr "red"; PyNum 1]] ∅
  = HoloViews.widgets_from_dimensions [color; count] [] ∅.
Proof.
  apply (declared_values_shadow_keys [color; count] [[PyStr "red"; PyNum 1]] [] ∅).
  - repeat constructor; discriminate.
  - reflexivity.
  - reflexivity.
Defined.


Lemma observed_keys_fill_select_witness :
  HoloViews.widgets_from_dimensions [kind] [[PyStr "a"]; [PyStr "b"]] ∅
  = Ok [AWidget (OptionsWidget Select "kind" (OptionList [PyStr "a"; PyStr "b"])
                   (PyStr "a"))].
Proof.
  exact (observed_keys_fill_select kind (PyStr "a") [PyStr "b"] ∅
           (lookup_empty _) eq_refl eq_refl eq_refl).
Defined.

Lemma JPG_short_length_swallows_witness :
  JPG._imgshape ([Byte.xff; Byte.xd8] ++ [Byte.xff; Byte.xe0; Byte.x00; Byte.x01]
                   ++ frame_header Byte.xc0 Byte.x00 Byte.x11 Byte.x08 50 100)
  = Raise (UnboundLocalError "local variable 'w' referenced before assignment").
Proof.
  apply (JPG_short_length_swallows [Byte.xff; Byte.xd8] Byte.xe0 Byte.x00 Byte.x01).
  - reflexivity.
  - discriminate.
  - reflexivity.
  - reflexivity.
Defined.

Lemma JPG_skips_garbage_and_fill_witness :
  JPG._imgshape ([Byte.xff; Byte.xd8] ++ [Byte.x00; Byte.x01]
                   ++ Byte.xff :: replicate 2 Byte.xff
                   ++ Byte.xc2 :: [Byte.x00; Byte.x11; Byte.x08]
                   ++ pack_BE_H 50 ++ pack_BE_H 100 ++ [])
  = Ok (100, 50)%Z.
Proof.
  apply (JPG_skips_garbage_and_fill [Byte.xff; Byte.xd8] [Byte.x00; Byte.x01] 2
           Byte.xc2 Byte.x00 Byte.x11 Byte.x08 50 100 []).
  - reflexivity.
  - repeat constructor; discriminate.
  - discriminate.
  - reflexivity.
  - lia.
  - lia.
Defined.

Lemma Image_explicit_size_still_reads_header_witness :
  Image__get_properties no_b64 floor_scale PNG.imgtype PNG._imgshape sized (Ok png_cut)
  = Raise (struct_error "unpack requires a buffer of 8 bytes").
Proof.
  exact (Image_explicit_size_still_reads_header no_b64 floor_scale PNG.imgtype
           PNG._imgshape sized png_cut 300 200 eq_refl eq_refl).
Defined.

Lemma PNG_natural_size_witness :
  exists props,
    Image__get_properties no_b64 floor_scale PNG.imgtype PNG._imgshape unsized
      (Ok png_100x50) = Ok props /\
    props !! "width" = Some (PInt 100) /\ props !! "height" = Some (PInt 50) /\
    props !! "sizing_mode" = Some (PStr "fixed").
Proof.
  destruct (PNG_natural_size no_b64 floor_scale unsized (take 16 png_100x50)
              100 50 (drop 24 png_100x50) eq_refl eq_refl eq_refl
              ltac:(lia) ltac:(lia))
    as (props & Hrun & Hw & Hh & Hs & _).
  exists props. split; [exact Hrun|]. split; [exact Hw|]. split; [exact Hh|exact Hs].
Defined.

Lemma Image_one_sided_size_divides_by_header_witness :
  Image__get_properties no_b64 floor_scale PNG.imgtype PNG._imgshape wide (Ok png_0x50)
  = Raise (Exception "ZeroDivisionError").
Proof.
  apply (Image_one_sided_size_divides_by_header no_b64 floor_scale PNG.imgtype
           PNG._imgshape wide png_0x50 0 50).
  - reflexivity.
  - left. split; [discriminate|]. split; reflexivity.
Defined.

Lemma YT_size_is_max_width_and_total_height_witness :
  YT__get_properties unsized ∅
    [("a", Some png_100x50); ("b", None); ("c", Some (png_0x50 ++ [Byte.x00]))]
  = Ok (<["height" := PInt 100]> (<["width" := PInt 100]> ∅)).
Proof.
  apply (YT_size_is_max_width_and_total_height unsized ∅
           [("a", Some png_100x50); ("b", None); ("c", Some (png_0x50 ++ [Byte.x00]))]).
  - reflexivity.
  - reflexivity.
  - repeat constructor; try (unfold readable; simpl; lia).
Defined.

Lemma YT_reads_plots_unless_sized_witness :
  YT__get_properties unsized ∅ [("a", Some png_100x50); ("b", Some png_cut)]
    = Raise (struct_error "unpack requires a buffer of 8 bytes") /\
  YT__get_properties sized ∅ [("a", Some png_100x50); ("b", Some png_cut)] = Ok ∅.
Proof.
  split.
  - apply (YT_reads_plots_unless_sized unsized ∅ [("a", Some png_100x50)] "b" png_cut []).
    + repeat constructor; try (unfold readable; simpl; lia).
    + simpl. lia.
  - apply (YT_reads_plots_unless_sized sized ∅ [("a", Some png_100x50)] "b" png_cut []).
    + repeat constructor; try (unfold readable; simpl; lia).
    + simpl. lia.
Defined.

Lemma replace_needs_old_child_witness :
  exists w',
    apply_change quiet true (Some a_Curve)
      (set_children [6; 9]%nat (displayed HoloViews.cls a_Curve)).2
    = (Raise (ValueError "x is not in list"), [], w') /\
    children w' = [6; 9]%nat /\ history w' = [7%nat].
Proof.
  destruct (replace_needs_old_child quiet true
              (set_children [6; 9]%nat (displayed HoloViews.cls a_Curve)).2
              a_Curve 7%nat [] 8%nat)
    as (w' & Hrun & Hc & Hh & _); try reflexivity.
  exists w'. split; [exact Hrun|]. split; [exact Hc|exact Hh].
Defined.

